(** * cobbi.core.cost_function: cost and gradient of the bed inversion

    Shallow embedding of [src/cobbi/core/cost_function.py].

    - Floating point numbers are kept abstract: the class [Scalar] lists the
      operations the module applies to numbers and assumes no law about
      them, so every statement proved for an arbitrary [Scalar] holds for
      whatever rounding, infinities and NaN the machine arithmetic has.
      Concrete evaluations use the instance on [Q], on inputs whose
      arithmetic is exact.
    - A 2-D torch tensor is a list of rows.  The grid fields of one run share
      one shape; the element-wise operations below agree with torch on
      operands of equal shape.
    - Python exceptions are the [Raise] results of the monad [result].
    - The data logger is threaded explicitly through [cost_function]. *)

From Stdlib Require Import ZArith QArith Lia.
From stdpp Require Import base list strings.

Set Default Proof Using "Type".
Local Open Scope Z_scope.

(** ** Exceptions *)

Inductive exn : Type :=
| AttributeError (attr : string)
| IndexError
| ValueError
| RuntimeError.

Inductive result (A : Type) : Type :=
| Ok (a : A)
| Raise (e : exn).
Arguments Ok {A} a.
Arguments Raise {A} e.

#[export] Instance result_ret : MRet result := fun A a => Ok a.

#[export] Instance result_bind : MBind result := fun A B k m =>
  match m with
  | Ok a => k a
  | Raise e => Raise e
  end.

Definition returns {A : Type} (m : result A) : bool :=
  match m with Ok _ => true | Raise _ => false end.

(** ** Numbers *)

(** [torch.float] and [np.float64] *)
Inductive dtype : Type := Float32 | Float64.

Class Scalar (F : Type) : Type := {
  of_Z : Z → F;
  (** conversion to a dtype *)
  fcast : dtype → F → F;
  fadd : F → F → F;
  fsub : F → F → F;
  fmul : F → F → F;
  fdiv : F → F → F;
  (** [x.pow(n)] and [x ** n] *)
  fpow : F → Z → F;
  (** [x > y] *)
  fgtb : F → F → bool;
  (** [x == y] *)
  feqb : F → F → bool
}.

(** Exact rationals, reduced after every operation so that Leibniz equality
    is equality of values.  A division by zero gives 0 here; the evaluations
    in this instance divide by no zero. *)
#[export] Instance Q_Scalar : Scalar Q := {|
  of_Z := inject_Z;
  fcast _ x := x;
  fadd x y := Qred (x + y);
  fsub x y := Qred (x - y);
  fmul x y := Qred (x * y);
  fdiv x y := Qred (x / y);
  fpow x n := Qred (x ^ n);
  fgtb x y := match (y ?= x)%Q with Lt => true | _ => false end;
  feqb x y := Qeq_bool x y
|}.

(** Rationals with a flag that is set once a division by zero has entered
    the computation of the number. *)
#[export] Instance Flagged_Scalar : Scalar (Q * bool) := {|
  of_Z z := (inject_Z z, false);
  fcast _ x := x;
  fadd x y := (Qred (x.1 + y.1), x.2 || y.2);
  fsub x y := (Qred (x.1 - y.1), x.2 || y.2);
  fmul x y := (Qred (x.1 * y.1), x.2 || y.2);
  fdiv x y := (Qred (x.1 / y.1), x.2 || y.2 || Qeq_bool y.1 0);
  fpow x n := (Qred (x.1 ^ n), x.2 || ((n <? 0) && Qeq_bool x.1 0));
  fgtb x y := match (y.1 ?= x.1)%Q with Lt => true | _ => false end;
  feqb x y := Qeq_bool x.1 y.1
|}.

(** ** Python sequences *)

(** [l[lo:hi]] with Python's treatment of negative and out-of-range bounds;
    [None] is an omitted bound. *)
Definition clamp_index (n : nat) (i : Z) : nat :=
  Z.to_nat (Z.min (Z.of_nat n)
                  (Z.max 0 (if i <? 0 then i + Z.of_nat n else i))).

Definition pyslice {A : Type} (lo hi : option Z) (l : list A) : list A :=
  let n := length l in
  let a := from_option (clamp_index n) 0%nat lo in
  let b := from_option (clamp_index n) n hi in
  take (b - a) (drop a l).

(** [l[i]] for an index that may be negative; out of range raises. *)
Definition getitem {A : Type} (l : list A) (i : Z) : result A :=
  let j := if i <? 0 then i + Z.of_nat (length l) else i in
  if j <? 0 then Raise IndexError
  else match l !! Z.to_nat j with
       | Some x => Ok x
       | None => Raise IndexError
       end.

(** [l[i] = v] on a 1-D tensor, for an index that may be negative.  The
    module only assigns into [torch.zeros(10)] at the indices [-1] and
    [0] to [8], which are in range; out of range the list is left as it is. *)
Definition setitem {A : Type} (l : list A) (i : Z) (v : A) : list A :=
  let j := if i <? 0 then i + Z.of_nat (length l) else i in
  if j <? 0 then l else <[Z.to_nat j := v]> l.

(** A slice expression [lo:hi]. *)
Definition slice_spec : Type := option Z * option Z.
Definition all_ : slice_spec := (None, None).
Definition upto (b : Z) : slice_spec := (None, Some b).
Definition from (a : Z) : slice_spec := (Some a, None).
Definition range (a b : Z) : slice_spec := (Some a, Some b).

(** ** Tensors *)

(** A 2-D [torch.FloatTensor], row by row. *)
Definition tensor (F : Type) : Type := list (list F).

Section Tensors.
Context {F : Type} `{!Scalar F}.

(** [torch.zeros(n)] and [torch.zeros((h, w))] *)
Definition zeros (n : nat) : list F := replicate n (of_Z 0).
Definition zeros2 (h w : nat) : tensor F := replicate h (zeros w).
Definition ones2 (h w : nat) : tensor F := replicate h (replicate w (of_Z 1)).

(** [t.shape] and [t.numel()] *)
Definition shape (t : tensor F) : nat * nat :=
  (length t, from_option length 0%nat (head t)).
Definition numel (t : tensor F) : nat := length (concat t).

(** [t[rs, cs]] *)
Definition slice2 (t : tensor F) (rs cs : slice_spec) : tensor F :=
  map (pyslice cs.1 cs.2) (pyslice rs.1 rs.2 t).

(** [t.sum()] *)
Definition tsum (t : tensor F) : F := fold_left fadd (concat t) (of_Z 0).

(** Element-wise operations on two tensors of one shape. *)
Definition tzip (f : F → F → F) (a b : tensor F) : tensor F :=
  zip_with (zip_with f) a b.
Definition tadd : tensor F → tensor F → tensor F := tzip fadd.
Definition tsub : tensor F → tensor F → tensor F := tzip fsub.
Definition tmul : tensor F → tensor F → tensor F := tzip fmul.

(** Operations of a tensor with a number: [t / x], [x * t], [x - t],
    [t.pow(n)]. *)
Definition tmap (f : F → F) (t : tensor F) : tensor F := map (map f) t.
Definition tdiv_s (t : tensor F) (x : F) : tensor F :=
  tmap (fun a => fdiv a x) t.
Definition smul_t (x : F) (t : tensor F) : tensor F := tmap (fmul x) t.
Definition ssub_t (x : F) (t : tensor F) : tensor F := tmap (fsub x) t.
Definition tpow (t : tensor F) (n : Z) : tensor F := tmap (fun a => fpow a n) t.

(** Comparison results converted by [.type(dtype=torch.float)] or by the
    assignment into a float tensor. *)
Definition of_bool (b : bool) : F := if b then of_Z 1 else of_Z 0.

(** [x != 0] *)
Definition fne (x y : F) : bool := negb (feqb x y).

(** [x.type(dtype=torch.float)] *)
Definition type_float (x : F) : F := fcast Float32 x.
End Tensors.

(** ** The custom autograd function *)

Module LocalMeanSquaredDifference.
Section Function.
Context {F : Type} `{!Scalar F}.

(** The context object handed to [forward] and [backward]. *)
Record ctx : Type := { saved_tensors : list (tensor F) }.

Definition save_for_backward (ts : list (tensor F)) : ctx :=
  {| saved_tensors := ts |}.

(** The gradients [backward] returns, one per input of [forward] and in
    the order of these inputs; [None] is Python's [None]. *)
Definition grads : Type :=
  (option (tensor F) * option (tensor F) * option (tensor F)
   * option (tensor F) * option (tensor F))%type.

Definition forward
    (modelled_surf surface_to_match ice_region ice_mask bed : tensor F)
    : ctx * F :=
  let c := save_for_backward
             [modelled_surf; surface_to_match; ice_region; ice_mask; bed] in
  let msd := fdiv (tsum (tpow (tsub modelled_surf surface_to_match) 2))
                  (type_float (tsum ice_region)) in
  (c, msd).

Definition backward (c : ctx) (grad_output : F) : result grads :=
  match saved_tensors c with
  | [modelled_surf; observed_surf; ice_region; ice_mask; bed] =>
      let grad_modelled_surf :=
        tmul (tsub modelled_surf observed_surf) ice_mask in
      Ok (None, None, None, None, Some grad_modelled_surf)
  | _ => Raise ValueError
  end.

(** [LocalMeanSquaredDifference.apply]: runs [forward] on a fresh context
    and records the node, that is the context, in the graph. *)
Definition apply
    (modelled_surf surface_to_match ice_region ice_mask bed : tensor F)
    : ctx * F :=
  forward modelled_surf surface_to_match ice_region ice_mask bed.
End Function.
Arguments ctx F : clear implicits.
Arguments grads F : clear implicits.
End LocalMeanSquaredDifference.

(** ** The cost terms *)

Module LMSD := LocalMeanSquaredDifference.

(** The tensor [get_costs] returns: its ten values, and the node of the
    custom function in its graph when there is one, with the factor the
    node's output is multiplied by in [cost[8]]. *)
Record cost_tensor (F : Type) : Type := {
  values : list F;
  custom_node : option (F * LMSD.ctx F)
}.
Arguments values {F} _.
Arguments custom_node {F} _.

Section GetCosts.
Context {F : Type} `{!Scalar F}.

(** The two masked curvatures of a field, [dd_dx] and [dd_dy]: written
    out four times in the source (terms 4, 5, 6 and 7). *)
Definition curvature_x (f mask : tensor F) (dx : F) : tensor F :=
  let dd_dx :=
    tdiv_s (tsub (tadd (slice2 f all_ (upto (-2))) (slice2 f all_ (from 2)))
                 (smul_t (of_Z 2) (slice2 f all_ (range 1 (-1)))))
           (fpow dx 2) in
  tmul dd_dx (slice2 mask all_ (range 1 (-1))).

Definition curvature_y (f mask : tensor F) (dx : F) : tensor F :=
  let dd_dy :=
    tdiv_s (tsub (tadd (slice2 f (upto (-2)) all_) (slice2 f (from 2) all_))
                 (smul_t (of_Z 2) (slice2 f (range 1 (-1)) all_)))
           (fpow dx 2) in
  tmul dd_dy (slice2 mask (range 1 (-1)) all_).

Definition get_costs
    (lambdas : list F)
    (ref_surf ref_ice_mask ref_inner_mask guessed_bed
     model_surf model_ice_mask model_inner_mask : tensor F)
    (dx : F) : result (cost_tensor F) :=
  let n_inner_mask := tsum model_inner_mask in
  let n_ice_mask := tsum ref_ice_mask in
  let n_grid := numel ref_surf in
  let cost := zeros 10 in
  let cost := setitem cost (-1)
    (fdiv (tsum (tpow (tsub ref_surf model_surf) 2)) (tsum ref_ice_mask)) in
  l0 ← getitem lambdas 0;
  let cost :=
    if fne l0 (of_Z 0) then
      let it := tsub model_surf guessed_bed in
      let dit_dx := tdiv_s (tsub (slice2 it all_ (upto (-2)))
                                 (slice2 it all_ (from 2)))
                           (fmul (of_Z 2) dx) in
      let dit_dy := tdiv_s (tsub (slice2 it (upto (-2)) all_)
                                 (slice2 it (from 2) all_))
                           (fmul (of_Z 2) dx) in
      let dit_dx := tmul dit_dx (slice2 model_inner_mask all_ (range 1 (-1))) in
      let dit_dy := tmul dit_dy (slice2 model_inner_mask (range 1 (-1)) all_) in
      setitem cost 0
        (fmul l0 (fdiv (fadd (tsum (tpow dit_dx 2)) (tsum (tpow dit_dy 2)))
                       n_inner_mask))
    else cost in
  l1 ← getitem lambdas 1;
  let cost :=
    if fne l1 (of_Z 0) then
      let db_dx := tdiv_s (tsub (slice2 guessed_bed all_ (upto (-2)))
                                (slice2 guessed_bed all_ (from 2))) dx in
      let db_dy := tdiv_s (tsub (slice2 guessed_bed (upto (-2)) all_)
                                (slice2 guessed_bed (from 2) all_)) dx in
      let db_dx := tmul db_dx (slice2 model_inner_mask all_ (range 1 (-1))) in
      let db_dy := tmul db_dy (slice2 model_inner_mask (range 1 (-1)) all_) in
      setitem cost 1
        (fmul l1 (fdiv (fadd (tsum (tpow db_dx 2)) (tsum (tpow db_dy 2)))
                       n_inner_mask))
    else cost in
  l2 ← getitem lambdas 2;
  let cost :=
    if fne l2 (of_Z 0) then
      setitem cost 2
        (fmul l2 (fdiv (tsum (tpow (tmul (tsub model_surf guessed_bed)
                                         (ssub_t (of_Z 1) ref_ice_mask)) 2))
                       (fsub (of_Z (Z.of_nat n_grid)) n_ice_mask)))
    else cost in
  l3 ← getitem lambdas 3;
  let cost :=
    if fne l3 (of_Z 0) then
      setitem cost 3
        (fmul l3 (fdiv (tsum (tpow (tmul (tsub ref_surf guessed_bed)
                                         (ssub_t (of_Z 1) ref_ice_mask)) 2))
                       (fsub (of_Z (Z.of_nat n_grid)) n_ice_mask)))
    else cost in
  l4 ← getitem lambdas 4;
  let cost :=
    if fne l4 (of_Z 0) then
      let it := tsub model_surf guessed_bed in
      let ddit_dx := curvature_x it model_inner_mask dx in
      let ddit_dy := curvature_y it model_inner_mask dx in
      setitem cost 4
        (fmul l4 (fdiv (fadd (tsum (tpow ddit_dx 2)) (tsum (tpow ddit_dy 2)))
                       n_inner_mask))
    else cost in
  l5 ← getitem lambdas 5;
  let cost :=
    if fne l5 (of_Z 0) then
      let ddb_dx := curvature_x guessed_bed model_inner_mask dx in
      let ddb_dy := curvature_y guessed_bed model_inner_mask dx in
      setitem cost 5
        (fmul l5 (fdiv (fadd (tsum (tpow ddb_dx 2)) (tsum (tpow ddb_dy 2)))
                       (fmul (of_Z 2) n_inner_mask)))
    else cost in
  l6 ← getitem lambdas 6;
  let cost :=
    if fne l6 (of_Z 0) then
      let ring := tsub ref_ice_mask model_inner_mask in
      let ddb_dx := curvature_x guessed_bed ring dx in
      let ddb_dy := curvature_y guessed_bed ring dx in
      setitem cost 6
        (fmul l6 (fdiv (fadd (tsum (tpow ddb_dx 2)) (tsum (tpow ddb_dy 2)))
                       (fmul (of_Z 2)
                             (tsum (slice2 ring (range 1 (-1))
                                                (range 1 (-1)))))))
    else cost in
  l7 ← getitem lambdas 7;
  let cost :=
    if fne l7 (of_Z 0) then
      let dds_dx := curvature_x model_surf model_inner_mask dx in
      let dds_dy := curvature_y model_surf model_inner_mask dx in
      setitem cost 7
        (fmul l7 (fdiv (fadd (tsum (tpow dds_dx 2)) (tsum (tpow dds_dy 2)))
                       n_inner_mask))
    else cost in
  l8 ← getitem lambdas 8;
  if fne l8 (of_Z 0) then
    let '(node, msd) :=
      LMSD.apply model_surf ref_surf ref_ice_mask ref_ice_mask guessed_bed in
    Ok {| values := setitem cost 8 (fmul l8 msd);
          custom_node := Some (l8, node) |}
  else Ok {| values := cost; custom_node := None |}.
End GetCosts.

(** ** Arrays and tensors of other ranks *)

(** A numpy array: the optimizer's flat bed vector, and what the module
    returns and logs. *)
Record ndarray (F : Type) : Type := {
  nd_dtype : dtype;
  nd_shape : list nat;
  nd_data : list F
}.
Arguments nd_dtype {F} _.
Arguments nd_shape {F} _.
Arguments nd_data {F} _.

(** A tensor of shape [(1, ..., 1, h, w)] with [lead] leading dimensions of
    size one, as [unsqueeze(0)] builds them. *)
Record tensor_nd (F : Type) : Type := {
  lead : nat;
  body : tensor F
}.
Arguments lead {F} _.
Arguments body {F} _.

Section Torch.
Context {F : Type} `{!Scalar F}.

(** [torch.tensor(a, dtype=torch.float)] on a 2-D array *)
Definition torch_tensor (a : tensor F) : tensor F := tmap (fcast Float32) a.

Definition as_nd (t : tensor F) : tensor_nd F := {| lead := 0; body := t |}.

(** [t.unsqueeze(0)] *)
Definition unsqueeze0 (t : tensor_nd F) : tensor_nd F :=
  {| lead := S (lead t); body := body t |}.

(** The attribute [name] of a tensor, for the calls [t.name(0)] of the
    module.  [torch.Tensor] defines [unsqueeze]; looking up a name it does
    not define raises [AttributeError]. *)
Definition tensor_method0 (name : string)
    : result (tensor_nd F → result (tensor_nd F)) :=
  match name with
  | "unsqueeze" => Ok (fun t => Ok (unsqueeze0 t))
  | _ => Raise (AttributeError name)
  end%string.

(** [torch.conv2d(input, weight)] for one batch and one channel: input and
    weight have four dimensions, the weight fits into the input, and every
    output cell is the sum over the window of input times weight. *)
Definition window (t : tensor F) (i j kh kw : nat) : tensor F :=
  map (fun r => take kw (drop j r)) (take kh (drop i t)).

Definition conv2d (input weight : tensor_nd F) : result (tensor_nd F) :=
  let '(h, w) := shape (body input) in
  let '(kh, kw) := shape (body weight) in
  if decide (lead input = 2%nat ∧ lead weight = 2%nat
             ∧ (1 ≤ kh ≤ h)%nat ∧ (1 ≤ kw ≤ w)%nat) then
    Ok {| lead := 2;
          body := map (fun i =>
                    map (fun j =>
                      tsum (tmul (window (body input) i j kh kw) (body weight)))
                        (seq 0 (w - kw + 1)))
                    (seq 0 (h - kh + 1)) |}
  else Raise RuntimeError.

(** [t == x], element by element *)
Definition teq_s (t : tensor_nd F) (x : F) : list (list bool) :=
  map (map (fun a => feqb a x)) (body t).

(** [base[1:-1, 1:-1] = src] for a boolean [src]: the leading dimensions
    of size one are dropped, the shapes must agree, and the booleans are
    stored as floats. *)
Definition splice {A : Type} (l mid : list A) : list A :=
  take 1 l ++ mid ++ drop (length l - 1) l.

Definition set_interior (base : tensor F) (src : list (list bool))
    : result (tensor F) :=
  let inner := slice2 base (range 1 (-1)) (range 1 (-1)) in
  if decide (map length inner = map length src) then
    Ok (match inner with
        | [] => base
        | _ => splice base
                 (zip_with (fun r s => match s with
                                       | [] => r
                                       | _ => splice r (map of_bool s)
                                       end)
                           (pyslice (Some 1) (Some (-1)) base) src)
        end)
  else Raise RuntimeError.

(** [a.reshape((h, w))] of a numpy array, then as a tensor's rows *)
Definition reshape2 (a : ndarray F) (hw : nat * nat) : result (tensor F) :=
  let '(h, w) := hw in
  if decide (length (nd_data a) = (h * w)%nat) then
    Ok (map (fun i => take w (drop (i * w) (nd_data a))) (seq 0 h))
  else Raise ValueError.

(** [t.detach().numpy()] of a 2-D tensor and of a number *)
Definition numpy2 (t : tensor F) : ndarray F :=
  {| nd_dtype := Float32;
     nd_shape := [(shape t).1; (shape t).2];
     nd_data := concat t |}.
Definition numpy0 (x : F) : ndarray F :=
  {| nd_dtype := Float32; nd_shape := []; nd_data := [x] |}.

(** [a.reshape(s)] and [a.astype(np.float64)] of a numpy array *)
Definition nd_reshape (a : ndarray F) (s : list nat) : result (ndarray F) :=
  if decide (length (nd_data a) = foldr Nat.mul 1%nat s) then
    Ok {| nd_dtype := nd_dtype a; nd_shape := s; nd_data := nd_data a |}
  else Raise ValueError.
Definition astype (a : ndarray F) (d : dtype) : ndarray F :=
  {| nd_dtype := d; nd_shape := nd_shape a;
     nd_data := map (fcast d) (nd_data a) |}.
End Torch.

(** ** The data logger *)

(** The five lists of the optional [data_logger], oldest entry first. *)
Module DataLogger.
Record t (F : Type) : Type := {
  c_terms : list (ndarray F);
  costs : list (ndarray F);
  grads : list (ndarray F);
  beds : list (ndarray F);
  surfs : list (ndarray F)
}.
Arguments c_terms {F} _.
Arguments costs {F} _.
Arguments grads {F} _.
Arguments beds {F} _.
Arguments surfs {F} _.
End DataLogger.

(** Modelled from the spec: the glacier directory [gdir] of
    [create_cost_func].  Its class and the file readers ([salem.GeoTiff],
    [np.load]) are not part of the module; the record holds the three arrays
    the readers return for the spinup surface, the reference surface and the
    reference ice mask. *)
Record GlacierDirectory (F : Type) : Type := {
  dem_spinup : tensor F;
  dem_ref : tensor F;
  ice_mask_ref : tensor F
}.
Arguments dem_spinup {F} _.
Arguments dem_ref {F} _.
Arguments ice_mask_ref {F} _.

(** ** The cost function *)

Section CostFunction.
Context {F : Type} `{!Scalar F}.

(** The mass-balance model, handed through to the forward run. *)
Variable MassBalanceModel : Type.

(** [cobbi.core.dynamics.run_forward_core], the forward simulator: a
    deterministic function of its arguments that returns the model surface
    or raises. *)
Variable run_forward_core :
  F → tensor F → F → MassBalanceModel → tensor F → result (tensor F).

(** [c.backward()] followed by reading [guessed_bed.grad]: torch's
    reverse-mode engine, given the computation from the leaf to the cost
    terms, the custom node of the graph and the value of the leaf. *)
Variable autograd_backward :
  (tensor F → result (list F)) → option (F * LMSD.ctx F) → tensor F
  → result (tensor F).

(** The inner mask of an ice mask, as both [create_cost_func] (lines
    66-68) and [cost_function] (lines 139-141) write it. *)
Definition inner_mask_of (ice_mask : tensor F) (conv_filter : tensor_nd F)
    : result (tensor F) :=
  let inner_mask := zeros2 (shape ice_mask).1 (shape ice_mask).2 in
  unsqeeze ← tensor_method0 "unsqeeze";
  x ← unsqeeze (as_nd ice_mask);
  unsqueeze ← tensor_method0 "unsqueeze";
  x ← unsqueeze x;
  conv ← conv2d x conv_filter;
  set_interior inner_mask (teq_s conv (of_Z 9)).

(** Lines 133-146 of [cost_function] as a function of the guessed bed:
    the forward run, the model masks and the cost terms.  This is the
    computation [c.backward()] differentiates. *)
Definition forward_and_costs
    (lambdas : list F)
    (ref_surf ref_ice_mask ref_inner_mask spinup_surf : tensor F)
    (conv_filter : tensor_nd F) (yrs_to_run dx : F) (mb : MassBalanceModel)
    (guessed_bed : tensor F) : result (tensor F * cost_tensor F) :=
  let init_ice_thick := tsub spinup_surf guessed_bed in
  model_surf ← run_forward_core yrs_to_run guessed_bed dx mb init_ice_thick;
  let model_ice_mask :=
    tmap (fun x => type_float (of_bool (fgtb x (of_Z 0))))
         (tsub model_surf guessed_bed) in
  model_inner_mask ← inner_mask_of model_ice_mask conv_filter;
  c_terms ← get_costs lambdas ref_surf ref_ice_mask ref_inner_mask
              guessed_bed model_surf model_ice_mask model_inner_mask dx;
  Ok (model_surf, c_terms).

(** Lines 157-163 of [cost_function]: the five appends to an attached
    logger. *)
Definition log_data (data_logger : option (DataLogger.t F))
    (c : F) (cost grad : ndarray F) (guessed_bed model_surf : tensor F)
    : option (DataLogger.t F) :=
  match data_logger with
  | Some lg =>
      Some {| DataLogger.c_terms := DataLogger.c_terms lg ++ [numpy0 c];
              DataLogger.costs := DataLogger.costs lg ++ [cost];
              DataLogger.grads := DataLogger.grads lg ++ [grad];
              DataLogger.beds := DataLogger.beds lg ++ [numpy2 guessed_bed];
              DataLogger.surfs := DataLogger.surfs lg ++ [numpy2 model_surf] |}
  | None => None
  end.

(** What one call computes, and the logger after it. *)
Definition cost_function_body
    (b : ndarray F) (lambdas : list F)
    (ref_surf ref_ice_mask ref_inner_mask spinup_surf : tensor F)
    (conv_filter : tensor_nd F) (yrs_to_run dx : F) (mb : MassBalanceModel)
    (data_logger : option (DataLogger.t F))
    : result ((ndarray F * ndarray F) * option (DataLogger.t F)) :=
  shaped ← reshape2 b (shape ref_surf);
  let guessed_bed := torch_tensor shaped in
  let graph := forward_and_costs lambdas ref_surf ref_ice_mask
                 ref_inner_mask spinup_surf conv_filter yrs_to_run dx mb in
  '(model_surf, c_terms) ← graph guessed_bed;
  let c := fold_left fadd (values c_terms) (of_Z 0) in
  g ← autograd_backward (fun bed => r ← graph bed; Ok (values r.2))
        (custom_node c_terms) guessed_bed;
  g' ← nd_reshape (numpy2 g) (nd_shape b);
  let grad := astype g' Float64 in
  let cost := astype (numpy0 c) Float64 in
  let data_logger := log_data data_logger c cost grad guessed_bed model_surf in
  Ok ((cost, grad), data_logger).

(** [cost_function]: the result of the call, and the data logger after
    it.  The appends are the last statements, so a call that raises
    leaves the logger as it was. *)
Definition cost_function
    (b : ndarray F) (lambdas : list F)
    (ref_surf ref_ice_mask ref_inner_mask spinup_surf : tensor F)
    (conv_filter : tensor_nd F) (yrs_to_run dx : F) (mb : MassBalanceModel)
    (data_logger : option (DataLogger.t F))
    : result (ndarray F * ndarray F) * option (DataLogger.t F) :=
  match cost_function_body b lambdas ref_surf ref_ice_mask ref_inner_mask
          spinup_surf conv_filter yrs_to_run dx mb data_logger with
  | Ok (r, lg) => (Ok r, lg)
  | Raise e => (Raise e, data_logger)
  end.

(** The closure [c_fun] takes the bed vector; the logger it closes over
    is passed in its current state and returned in its new one. *)
Definition c_fun_type : Type :=
  ndarray F → option (DataLogger.t F)
  → result (ndarray F * ndarray F) * option (DataLogger.t F).

Definition create_cost_func
    (gdir : GlacierDirectory F) (lambdas : list F) (yrs_to_run dx : F)
    (mb : MassBalanceModel) : result c_fun_type :=
  let conv_filter : tensor_nd F := {| lead := 2; body := ones2 3 3 |} in
  let spinup_surf := torch_tensor (dem_spinup gdir) in
  let ref_surf := torch_tensor (dem_ref gdir) in
  let ref_ice_mask := torch_tensor (ice_mask_ref gdir) in
  ref_inner_mask ← inner_mask_of ref_ice_mask conv_filter;
  let c_fun : c_fun_type := fun b data_logger =>
    cost_function b lambdas ref_surf ref_ice_mask ref_inner_mask
      spinup_surf conv_filter yrs_to_run dx mb data_logger in
  Ok c_fun.
End CostFunction.

(** ** Names for the expressions of the cost terms

    The expressions [get_costs] computes, named so that the statements
    below can refer to them; [get_costs_nine] proves that these are the
    values of the ten slots. *)

Section Terms.
Context {F : Type} `{!Scalar F}.

(** [u.pow(2).sum() + v.pow(2).sum()] *)
Definition sum_sq2 (u v : tensor F) : F :=
  fadd (tsum (tpow u 2)) (tsum (tpow v 2)).

(** [(f[:, :-2] - f[:, 2:]) / d * mask[:, 1:-1]] and its counterpart along
    the rows. *)
Definition masked_diff_x (f mask : tensor F) (d : F) : tensor F :=
  tmul (tdiv_s (tsub (slice2 f all_ (upto (-2))) (slice2 f all_ (from 2))) d)
       (slice2 mask all_ (range 1 (-1))).
Definition masked_diff_y (f mask : tensor F) (d : F) : tensor F :=
  tmul (tdiv_s (tsub (slice2 f (upto (-2)) all_) (slice2 f (from 2) all_)) d)
       (slice2 mask (range 1 (-1)) all_).

(** Sum of squares of the two masked differences of [f], the differences
    being divided by [d]. *)
Definition diff_sq (f mask : tensor F) (d : F) : F :=
  sum_sq2 (masked_diff_x f mask d) (masked_diff_y f mask d).

(** Sum of squares of the two masked curvatures of [f]. *)
Definition curvature_sq (f mask : tensor F) (dx : F) : F :=
  sum_sq2 (curvature_x f mask dx) (curvature_y f mask dx).

(** [((f - guessed_bed) * (1. - ref_ice_mask)).pow(2).sum()
     / (n_grid - n_ice_mask)] *)
Definition outside_sq (f guessed_bed ref_surf ref_ice_mask : tensor F) : F :=
  fdiv (tsum (tpow (tmul (tsub f guessed_bed)
                         (ssub_t (of_Z 1) ref_ice_mask)) 2))
       (fsub (of_Z (Z.of_nat (numel ref_surf))) (tsum ref_ice_mask)).

(** The surface misfit of the last slot. *)
Definition misfit (ref_surf model_surf ref_ice_mask : tensor F) : F :=
  fdiv (tsum (tpow (tsub ref_surf model_surf) 2)) (tsum ref_ice_mask).

(** The factor of [lambdas[i]] in slot [i], for each switchable term
    [i]. *)
Definition term (i : nat)
    (ref_surf ref_ice_mask guessed_bed model_surf model_inner_mask : tensor F)
    (dx : F) : F :=
  let n_inner_mask := tsum model_inner_mask in
  let it := tsub model_surf guessed_bed in
  let ring := tsub ref_ice_mask model_inner_mask in
  match i with
  | 0 => fdiv (diff_sq it model_inner_mask (fmul (of_Z 2) dx)) n_inner_mask
  | 1 => fdiv (diff_sq guessed_bed model_inner_mask dx) n_inner_mask
  | 2 => outside_sq model_surf guessed_bed ref_surf ref_ice_mask
  | 3 => outside_sq ref_surf guessed_bed ref_surf ref_ice_mask
  | 4 => fdiv (curvature_sq it model_inner_mask dx) n_inner_mask
  | 5 => fdiv (curvature_sq guessed_bed model_inner_mask dx)
              (fmul (of_Z 2) n_inner_mask)
  | 6 => fdiv (curvature_sq guessed_bed ring dx)
              (fmul (of_Z 2)
                    (tsum (slice2 ring (range 1 (-1)) (range 1 (-1)))))
  | 7 => fdiv (curvature_sq model_surf model_inner_mask dx) n_inner_mask
  | _ => (LMSD.forward model_surf ref_surf ref_ice_mask ref_ice_mask
            guessed_bed).2
  end%nat.

(** The value of slot [i] for the weight [l]: [l * term] when [l != 0],
    else the zero the slot was created with. *)
Definition slot (l : F) (i : nat)
    (ref_surf ref_ice_mask guessed_bed model_surf model_inner_mask : tensor F)
    (dx : F) : F :=
  if fne l (of_Z 0)
  then fmul l (term i ref_surf ref_ice_mask guessed_bed model_surf
                 model_inner_mask dx)
  else of_Z 0.

(** The gradient the engine receives for the guessed bed from the custom
    node of a cost tensor: it calls the node's [backward] with the
    derivative of the summed cost by the node's output, which is the
    factor of the node, and reads the position of the input [bed]. *)
Definition injected_bed_grad (c : cost_tensor F)
    : result (option (tensor F)) :=
  match custom_node c with
  | Some (factor, node) =>
      gs ← LMSD.backward node (fmul (of_Z 1) factor);
      Ok gs.2
  | None => Ok None
  end.

(** The gradient an entry of [backward]'s tuple stands for: [None] is no
    contribution, which the engine treats as a zero gradient of the
    shape of the input. *)
Definition gradient_wrt (g : option (tensor F)) (input : tensor F)
    : tensor F :=
  from_option id (tmap (fun _ => of_Z 0) input) g.
End Terms.

(** ** Concrete inputs: a 3 x 3 grid over the rationals *)

Module Grid3.
Local Open Scope Q_scope.

Definition zero3 : tensor Q := [[0; 0; 0]; [0; 0; 0]; [0; 0; 0]].
Definition one3 : tensor Q := [[1; 1; 1]; [1; 1; 1]; [1; 1; 1]].
Definition centre3 : tensor Q := [[0; 0; 0]; [0; 1; 0]; [0; 0; 0]].

(** A bed that is 2 in the west of the middle row and 0 elsewhere, and a
    surface one above it in the centre. *)
Definition bed3 : tensor Q := [[0; 0; 0]; [2; 0; 0]; [0; 0; 0]].
Definition surf3 : tensor Q := [[0; 0; 0]; [2; 1; 0]; [0; 0; 0]].

(** Nine weights: all zero, and all zero but the one of index [i]. *)
Definition no_lambdas : list Q := replicate 9 0.
Definition only_lambda (i : nat) (x : Q) : list Q := <[i := x]> no_lambdas.
Definition all_lambdas : list Q := replicate 9 1.

(** The optimizer's flat vector for [bed3]. *)
Definition b9 : ndarray Q :=
  {| nd_dtype := Float64; nd_shape := [9%nat]; nd_data := concat bed3 |}.

Definition empty_logger : DataLogger.t Q :=
  {| DataLogger.c_terms := []; DataLogger.costs := [];
     DataLogger.grads := []; DataLogger.beds := [];
     DataLogger.surfs := [] |}.

(** A simulator that returns bed plus initial thickness, and an engine
    that returns a zero gradient of the shape of the bed. *)
Definition mock_forward (yrs : Q) (bed : tensor Q) (dx : Q) (mb : unit)
    (init_ice_thick : tensor Q) : result (tensor Q) :=
  Ok (tadd bed init_ice_thick).
Definition mock_backward (graph : tensor Q → result (list Q))
    (node : option (Q * LMSD.ctx Q)) (bed : tensor Q)
    : result (tensor Q) :=
  Ok (tmap (fun _ => 0) bed).

Definition conv_filter : tensor_nd Q := {| lead := 2; body := ones2 3 3 |}.

(** Numbers and fields with the flag unset. *)
Definition unflagged (x : Q) : Q * bool := (x, false).
Definition unflagged1 (l : list Q) : list (Q * bool) := map unflagged l.
Definition unflagged2 (t : tensor Q) : tensor (Q * bool) := map unflagged1 t.

Definition gdir : GlacierDirectory Q :=
  {| dem_spinup := surf3; dem_ref := surf3; ice_mask_ref := one3 |}.
End Grid3.

(** ** Cells and shapes *)

(** [t[r, c]], when the cell exists. *)
Definition cell {F : Type} (t : tensor F) (r c : nat) : option F :=
  row ← t !! r; row !! c.

(** A tensor of [h] rows of [w] entries each. *)
Definition has_shape {F : Type} (h w : nat) (t : tensor F) : Prop :=
  length t = h ∧ Forall (fun row => length row = w) t.

(** Every entry of the tensor is [x]. *)
Definition all_entries {F : Type} (x : F) (t : tensor F) : Prop :=
  Forall (Forall (fun y => y = x)) t.


(** ** Further concrete inputs *)

Module Scenarios.
Local Open Scope Q_scope.

(** A flat vector of four numbers, which does not fill a 3 x 3 grid. *)
Definition b4 : ndarray Q :=
  {| nd_dtype := Float64; nd_shape := [4%nat]; nd_data := [0; 0; 0; 0] |}.

(** A simulator that fails. *)
Definition failing_forward (yrs : Q) (bed : tensor Q) (dx : Q) (mb : unit)
    (init_ice_thick : tensor Q) : result (tensor Q) :=
  Raise RuntimeError.

(** A second bed and a second surface on the 3 x 3 grid. *)
Definition bed3' : tensor Q := [[1; 0; 0]; [0; 3; 0]; [0; 0; 1]].
Definition surf3' : tensor Q := [[1; 1; 0]; [0; 4; 0]; [0; 2; 1]].
End Scenarios.

(** * Properties *)

(** ** Sequences *)

Lemma getitem_lookup {A : Type} (l : list A) (i : nat) (x : A) :
  l !! i = Some x → getitem l (Z.of_nat i) = Ok x.
Proof.
  intros Hl. unfold getitem.
  assert ((Z.of_nat i <? 0) = false) as Hpos by (apply Z.ltb_ge; lia).
  rewrite Hpos, Hpos, Nat2Z.id, Hl. reflexivity.
Qed.

Lemma nine_entries {A : Type} (l : list A) :
  (9 ≤ length l)%nat →
  ∃ l0 l1 l2 l3 l4 l5 l6 l7 l8 rest,
    l = l0 :: l1 :: l2 :: l3 :: l4 :: l5 :: l6 :: l7 :: l8 :: rest.
Proof.
  intros Hlen.
  do 9 (destruct l as [|? l]; [simpl in Hlen; lia|]).
  repeat eexists.
Qed.

Example pyslice_upto : pyslice None (Some (-2)) [1; 2; 3; 4] = [1; 2].
Proof. reflexivity. Qed.

Example pyslice_from : pyslice (Some 2) None [1; 2; 3; 4] = [3; 4].
Proof. reflexivity. Qed.

Example pyslice_inner : pyslice (Some 1) (Some (-1)) [1; 2; 3; 4] = [2; 3].
Proof. reflexivity. Qed.

Example pyslice_inner_short : pyslice (Some 1) (Some (-1)) [1] = [].
Proof. reflexivity. Qed.

Example getitem_last : getitem [1; 2; 3] (-1) = Ok 3.
Proof. reflexivity. Qed.

Example getitem_out_of_range : getitem [1; 2; 3] 3 = Raise IndexError.
Proof. reflexivity. Qed.

(** The convolution with the 3 x 3 filter of ones and the assignment of
    [conv == 9] into the interior, on a grid that is all ice: only the centre
    cell has nine ice cells around it. *)
Example inner_mask_steps_on_grid3 :
  (conv ← conv2d (unsqueeze0 (unsqueeze0 (as_nd Grid3.one3)))
            Grid3.conv_filter;
   set_interior (zeros2 3 3) (teq_s conv 9%Q))
  = Ok Grid3.centre3.
Proof. vm_compute. reflexivity. Qed.

(** ** The custom function *)

Section LMSDProperties.
Context {F : Type} `{!Scalar F}.

Lemma backward_of_forward
    (modelled_surf surface_to_match ice_region ice_mask bed : tensor F)
    (grad_output : F) :
  LMSD.backward
    (LMSD.forward modelled_surf surface_to_match ice_region ice_mask bed).1
    grad_output
  = Ok (None, None, None, None,
        Some (tmul (tsub modelled_surf surface_to_match) ice_mask)).
Proof. reflexivity. Qed.

Lemma backward_ignores_grad_output (c : LMSD.ctx F) (g1 g2 : F) :
  LMSD.backward c g1 = LMSD.backward c g2.
Proof. reflexivity. Qed.

(** C2, as amended: whatever tensors [forward] saved and whatever
    [grad_output] is, [backward] returns [None] for the first four inputs
    [modelled_surf], [surface_to_match], [ice_region] and [ice_mask], and
    returns [(modelled_surf - surface_to_match) * ice_mask] in the fifth
    position, the one of the input [bed]. *)
Theorem lmsd_backward_gradient_in_bed_position
    (modelled_surf surface_to_match ice_region ice_mask bed : tensor F)
    (grad_output : F) :
  ∃ g1 g2 g3 g4 g5 : option (tensor F),
    LMSD.backward
      (LMSD.forward modelled_surf surface_to_match ice_region ice_mask bed).1
      grad_output
    = Ok (g1, g2, g3, g4, g5)
    ∧ g1 = None ∧ g2 = None ∧ g3 = None ∧ g4 = None
    ∧ g5 = Some (tmul (tsub modelled_surf surface_to_match) ice_mask).
Proof.
  exists None, None, None, None.
  eexists. rewrite backward_of_forward. repeat split; reflexivity.
Qed.
End LMSDProperties.

(** C2, as stated, fails on the 3 x 3 grid: the entry of [backward]'s tuple
    for the first input [modelled_surf] is [None], a zero gradient and not
    [(modelled_surf - surface_to_match) * ice_mask], and the entry for the
    fifth input [bed] carries that product, which is not zero. *)
Lemma lmsd_backward_not_wrt_modelled_surf :
  ∃ g1 g2 g3 g4 g5 : option (tensor Q),
    LMSD.backward
      (LMSD.forward Grid3.surf3 Grid3.zero3 Grid3.one3 Grid3.one3 Grid3.bed3).1
      1%Q
    = Ok (g1, g2, g3, g4, g5)
    ∧ gradient_wrt g1 Grid3.surf3
      ≠ tmul (tsub Grid3.surf3 Grid3.zero3) Grid3.one3
    ∧ gradient_wrt g5 Grid3.bed3 ≠ Grid3.zero3.
Proof.
  eexists _, _, _, _, _. split; [reflexivity|].
  split; vm_compute; discriminate.
Qed.

(** ** The ten slots of [get_costs] *)

Section GetCostsProperties.
Context {F : Type} `{!Scalar F}.
Implicit Types (lambdas : list F) (dx : F).
Implicit Types
  (ref_surf ref_ice_mask ref_inner_mask guessed_bed : tensor F)
  (model_surf model_ice_mask model_inner_mask : tensor F).

(** With at least nine weights [get_costs] returns, slot [i] holds
    [slot l_i i], the last slot the misfit, and the graph has the custom
    node exactly when the last weight is not zero. *)
Lemma get_costs_nine l0 l1 l2 l3 l4 l5 l6 l7 l8 rest
    ref_surf ref_ice_mask ref_inner_mask guessed_bed
    model_surf model_ice_mask model_inner_mask dx :
  let s l i := slot l i ref_surf ref_ice_mask guessed_bed model_surf
                 model_inner_mask dx in
  get_costs (l0 :: l1 :: l2 :: l3 :: l4 :: l5 :: l6 :: l7 :: l8 :: rest)
    ref_surf ref_ice_mask ref_inner_mask guessed_bed
    model_surf model_ice_mask model_inner_mask dx
  = Ok {| values := [s l0 0%nat; s l1 1%nat; s l2 2%nat; s l3 3%nat;
                     s l4 4%nat; s l5 5%nat; s l6 6%nat; s l7 7%nat;
                     s l8 8%nat; misfit ref_surf model_surf ref_ice_mask];
          custom_node :=
            if fne l8 (of_Z 0)
            then Some (l8, (LMSD.forward model_surf ref_surf ref_ice_mask
                              ref_ice_mask guessed_bed).1)
            else None |}.
Proof.
  intros s. subst s. unfold get_costs, slot.
  repeat match goal with
         | |- context [getitem ?l ?i] =>
             let r := eval cbv in (getitem l i) in
             change (getitem l i) with r
         end.
  cbn [mbind result_bind].
  destruct (fne l0 (of_Z 0)), (fne l1 (of_Z 0)), (fne l2 (of_Z 0)),
    (fne l3 (of_Z 0)), (fne l4 (of_Z 0)), (fne l5 (of_Z 0)),
    (fne l6 (of_Z 0)), (fne l7 (of_Z 0)), (fne l8 (of_Z 0));
    reflexivity.
Qed.
End GetCostsProperties.

Section SlotProperties.
Context {F : Type} `{!Scalar F}.
Implicit Types (lambdas : list F) (dx : F).
Implicit Types
  (ref_surf ref_ice_mask ref_inner_mask guessed_bed : tensor F)
  (model_surf model_ice_mask model_inner_mask : tensor F).

(** C6: for every vector of at least nine weights, whatever their values,
    [get_costs] returns ten slots and the last, [cost[-1]], is
    [(ref_surf - model_surf).pow(2).sum() / ref_ice_mask.sum()]. *)
Theorem get_costs_last_slot_is_misfit lambdas
    ref_surf ref_ice_mask ref_inner_mask guessed_bed
    model_surf model_ice_mask model_inner_mask dx :
  (9 ≤ length lambdas)%nat →
  ∃ c, get_costs lambdas ref_surf ref_ice_mask ref_inner_mask guessed_bed
         model_surf model_ice_mask model_inner_mask dx = Ok c
       ∧ length (values c) = 10%nat
       ∧ getitem (values c) (-1)
         = Ok (fdiv (tsum (tpow (tsub ref_surf model_surf) 2))
                    (tsum ref_ice_mask)).
Proof.
  intros Hlen.
  destruct (nine_entries lambdas Hlen)
    as (l0 & l1 & l2 & l3 & l4 & l5 & l6 & l7 & l8 & rest & ->).
  eexists. split; [apply get_costs_nine|].
  split; reflexivity.
Qed.

(** C7: with non-zero weights for both, the curvature term of the ice
    thickness (slot 4) divides the sum of squares of the two masked
    curvatures by the cell count of the inner mask, and the curvature term
    of the bed (slot 5) divides the same functional of the bed by twice
    that count. *)
Theorem curvature_terms_normalization lambdas (l4 l5 : F)
    ref_surf ref_ice_mask ref_inner_mask guessed_bed
    model_surf model_ice_mask model_inner_mask dx :
  (9 ≤ length lambdas)%nat →
  lambdas !! 4%nat = Some l4 → fne l4 (of_Z 0) = true →
  lambdas !! 5%nat = Some l5 → fne l5 (of_Z 0) = true →
  ∃ c, get_costs lambdas ref_surf ref_ice_mask ref_inner_mask guessed_bed
         model_surf model_ice_mask model_inner_mask dx = Ok c
       ∧ values c !! 4%nat
         = Some (fmul l4
                   (fdiv (curvature_sq (tsub model_surf guessed_bed)
                                       model_inner_mask dx)
                         (tsum model_inner_mask)))
       ∧ values c !! 5%nat
         = Some (fmul l5
                   (fdiv (curvature_sq guessed_bed model_inner_mask dx)
                         (fmul (of_Z 2) (tsum model_inner_mask)))).
Proof.
  intros Hlen H4 Hl4 H5 Hl5.
  destruct (nine_entries lambdas Hlen)
    as (l0 & l1 & l2 & l3 & l4' & l5' & l6 & l7 & l8 & rest & ->).
  simpl in H4, H5. injection H4 as ->. injection H5 as ->.
  eexists. split; [apply get_costs_nine|].
  cbn [values lookup list_lookup]. unfold slot. rewrite Hl4, Hl5.
  split; reflexivity.
Qed.
End SlotProperties.

Section WeightProperties.
Context {F : Type} `{!Scalar F}.
Implicit Types (lambdas : list F) (dx : F).
Implicit Types
  (ref_surf ref_ice_mask ref_inner_mask guessed_bed : tensor F)
  (model_surf model_ice_mask model_inner_mask : tensor F).

(** C5: when the weight of a switchable term [i] is exactly zero,
    [get_costs] returns with slot [i] still holding the zero it was
    created with, for all fields and in every arithmetic, so no division
    of that term can show in the result; and against any other value [x]
    of that weight, every other slot and the custom node of the graph
    are the same. *)
Theorem zero_lambda_skips_term lambdas (i : nat) (li : F)
    ref_surf ref_ice_mask ref_inner_mask guessed_bed
    model_surf model_ice_mask model_inner_mask dx :
  (9 ≤ length lambdas)%nat → (i < 9)%nat →
  lambdas !! i = Some li → fne li (of_Z 0) = false →
  ∃ c, get_costs lambdas ref_surf ref_ice_mask ref_inner_mask guessed_bed
         model_surf model_ice_mask model_inner_mask dx = Ok c
       ∧ values c !! i = Some (of_Z 0)
       ∧ ∀ x : F,
           ∃ c', get_costs (<[i := x]> lambdas) ref_surf ref_ice_mask
                   ref_inner_mask guessed_bed model_surf model_ice_mask
                   model_inner_mask dx = Ok c'
                 ∧ (∀ j : nat, j ≠ i → values c' !! j = values c !! j)
                 ∧ (i ≠ 8%nat → custom_node c' = custom_node c).
Proof.
  intros Hlen Hi Hli Hzero.
  destruct (nine_entries lambdas Hlen)
    as (l0 & l1 & l2 & l3 & l4 & l5 & l6 & l7 & l8 & rest & ->).
  do 9 (destruct i as [|i];
    [ simpl in Hli; injection Hli as ->;
      eexists; split; [apply get_costs_nine|];
      split; [cbn [values lookup list_lookup]; unfold slot;
              rewrite Hzero; reflexivity|];
      intros x; eexists; split; [apply get_costs_nine|];
      split;
      [ intros j Hj;
        do 10 (destruct j as [|j];
               [first [exfalso; apply Hj; reflexivity | reflexivity]|]);
        reflexivity
      | intros H8; first [exfalso; apply H8; reflexivity | reflexivity] ]
    | ]).
  lia.
Qed.

(** C10: the tuple [backward] returns does not depend on [grad_output];
    and when the weight [lambdas[8]] is not zero, the node [get_costs]
    puts into the graph returns
    [(None, None, None, None, (model_surf - ref_surf) * ref_ice_mask)] for
    every [grad_output], so that the gradient the engine receives from it
    is that product, not multiplied by [lambdas[8]]. *)
Theorem lmsd_gradient_not_scaled_by_lambda lambdas (l8 : F)
    ref_surf ref_ice_mask ref_inner_mask guessed_bed
    model_surf model_ice_mask model_inner_mask dx :
  lambdas !! 8%nat = Some l8 → fne l8 (of_Z 0) = true →
  (∀ (node : LMSD.ctx F) (g1 g2 : F),
      LMSD.backward node g1 = LMSD.backward node g2)
  ∧ ∃ c node,
      get_costs lambdas ref_surf ref_ice_mask ref_inner_mask guessed_bed
        model_surf model_ice_mask model_inner_mask dx = Ok c
      ∧ custom_node c = Some (l8, node)
      ∧ (∀ grad_output : F,
           LMSD.backward node grad_output
           = Ok (None, None, None, None,
                 Some (tmul (tsub model_surf ref_surf) ref_ice_mask)))
      ∧ injected_bed_grad c
        = Ok (Some (tmul (tsub model_surf ref_surf) ref_ice_mask)).
Proof.
  intros H8 Hl8. split; [intros; apply backward_ignores_grad_output|].
  assert (9 ≤ length lambdas)%nat as Hlen.
  { apply lookup_lt_Some in H8. lia. }
  destruct (nine_entries lambdas Hlen)
    as (l0 & l1 & l2 & l3 & l4 & l5 & l6 & l7 & l8' & rest & ->).
  simpl in H8. injection H8 as ->.
  eexists _, _. split; [apply get_costs_nine|].
  unfold injected_bed_grad. cbn [custom_node]. rewrite Hl8.
  split; [reflexivity|]. split; [intros; apply backward_of_forward|].
  reflexivity.
Qed.
End WeightProperties.

(** C3 on the 3 x 3 grid, with [dx = 1], the bed 2 in the west of the middle
    row and the inner mask the centre cell: slot 1 holds 4, the sum of
    squares of the differences divided by [dx], where the central
    difference divided by [2 * dx] gives 1. *)
Theorem bed_gradient_term_divides_by_dx :
  ∃ c, get_costs (Grid3.only_lambda 1 1%Q) Grid3.zero3 Grid3.one3 Grid3.zero3
         Grid3.bed3 Grid3.surf3 Grid3.centre3 Grid3.centre3 1%Q = Ok c
       ∧ values c !! 1%nat = Some 4%Q
       ∧ values c !! 1%nat
         = Some (fmul 1%Q (fdiv (diff_sq Grid3.bed3 Grid3.centre3 1%Q)
                                (tsum Grid3.centre3)))
       ∧ fmul 1%Q (fdiv (diff_sq Grid3.bed3 Grid3.centre3 (fmul 2%Q 1%Q))
                        (tsum Grid3.centre3)) = 1%Q.
Proof.
  eexists. split; [vm_compute; reflexivity|].
  repeat split; vm_compute; reflexivity.
Qed.

(** For all fields, slot 0 divides the differences of the ice thickness by
    [2 * dx] and slot 1 divides the differences of the bed by [dx]. *)
Lemma gradient_terms_divisors {F : Type} `{!Scalar F}
    (lambdas : list F) (l0 l1 : F)
    (ref_surf ref_ice_mask ref_inner_mask guessed_bed
     model_surf model_ice_mask model_inner_mask : tensor F) (dx : F) :
  (9 ≤ length lambdas)%nat →
  lambdas !! 0%nat = Some l0 → fne l0 (of_Z 0) = true →
  lambdas !! 1%nat = Some l1 → fne l1 (of_Z 0) = true →
  ∃ c, get_costs lambdas ref_surf ref_ice_mask ref_inner_mask guessed_bed
         model_surf model_ice_mask model_inner_mask dx = Ok c
       ∧ values c !! 0%nat
         = Some (fmul l0
                   (fdiv (diff_sq (tsub model_surf guessed_bed)
                                  model_inner_mask (fmul (of_Z 2) dx))
                         (tsum model_inner_mask)))
       ∧ values c !! 1%nat
         = Some (fmul l1
                   (fdiv (diff_sq guessed_bed model_inner_mask dx)
                         (tsum model_inner_mask))).
Proof.
  intros Hlen H0 Hl0 H1 Hl1.
  destruct (nine_entries lambdas Hlen)
    as (l0' & l1' & l2 & l3 & l4 & l5 & l6 & l7 & l8 & rest & ->).
  simpl in H0, H1. injection H0 as ->. injection H1 as ->.
  eexists. split; [apply get_costs_nine|].
  cbn [values lookup list_lookup]. unfold slot. rewrite Hl0, Hl1.
  split; reflexivity.
Qed.

(** ** The misspelt method *)

Section CostFunctionProperties.
Context {F : Type} `{!Scalar F}.
Variable MassBalanceModel : Type.
Variable run_forward_core :
  F → tensor F → F → MassBalanceModel → tensor F → result (tensor F).
Variable autograd_backward :
  (tensor F → result (list F)) → option (F * LMSD.ctx F) → tensor F
  → result (tensor F).

Lemma inner_mask_of_raises (ice_mask : tensor F) (conv_filter : tensor_nd F) :
  inner_mask_of ice_mask conv_filter = Raise (AttributeError "unsqeeze").
Proof. reflexivity. Qed.

Lemma forward_and_costs_raises lambdas
    ref_surf ref_ice_mask ref_inner_mask spinup_surf conv_filter
    yrs_to_run dx mb guessed_bed :
  forward_and_costs MassBalanceModel run_forward_core lambdas ref_surf
    ref_ice_mask ref_inner_mask spinup_surf conv_filter yrs_to_run dx mb
    guessed_bed
  = match run_forward_core yrs_to_run guessed_bed dx mb
            (tsub spinup_surf guessed_bed) with
    | Ok _ => Raise (AttributeError "unsqeeze")
    | Raise e => Raise e
    end.
Proof.
  unfold forward_and_costs.
  destruct (run_forward_core _ _ _ _ _); reflexivity.
Qed.

(** C1: for every glacier directory [create_cost_func] raises the
    [AttributeError] of the attribute [unsqeeze], so that no closure is
    ever handed out; and a call of [cost_function] itself, for every bed
    vector and all other arguments, returns no pair: it raises that same
    error as soon as the reshape and the forward run have gone through,
    whatever the weights and the reference fields, and it leaves the
    logger as it was. *)
Theorem create_cost_func_raises_AttributeError :
  (∀ gdir lambdas yrs_to_run dx mb,
     create_cost_func MassBalanceModel run_forward_core autograd_backward
       gdir lambdas yrs_to_run dx mb
     = Raise (AttributeError "unsqeeze"))
  ∧ (∀ b lambdas ref_surf ref_ice_mask ref_inner_mask spinup_surf
       conv_filter yrs_to_run dx mb data_logger,
       cost_function MassBalanceModel run_forward_core autograd_backward
         b lambdas ref_surf ref_ice_mask ref_inner_mask spinup_surf
         conv_filter yrs_to_run dx mb data_logger
       = (match reshape2 b (shape ref_surf) with
          | Ok shaped =>
              match run_forward_core yrs_to_run (torch_tensor shaped) dx mb
                      (tsub spinup_surf (torch_tensor shaped)) with
              | Ok _ => Raise (AttributeError "unsqeeze")
              | Raise e => Raise e
              end
          | Raise e => Raise e
          end, data_logger))
  ∧ (∀ b lambdas ref_surf ref_ice_mask ref_inner_mask spinup_surf
       conv_filter yrs_to_run dx mb data_logger,
       returns
         (cost_function MassBalanceModel run_forward_core autograd_backward
            b lambdas ref_surf ref_ice_mask ref_inner_mask spinup_surf
            conv_filter yrs_to_run dx mb data_logger).1 = false).
Proof.
  assert (∀ b lambdas ref_surf ref_ice_mask ref_inner_mask spinup_surf
            conv_filter yrs_to_run dx mb data_logger,
            cost_function MassBalanceModel run_forward_core
              autograd_backward b lambdas ref_surf ref_ice_mask
              ref_inner_mask spinup_surf conv_filter yrs_to_run dx mb
              data_logger
            = (match reshape2 b (shape ref_surf) with
               | Ok shaped =>
                   match run_forward_core yrs_to_run (torch_tensor shaped)
                           dx mb (tsub spinup_surf (torch_tensor shaped)) with
                   | Ok _ => Raise (AttributeError "unsqeeze")
                   | Raise e => Raise e
                   end
               | Raise e => Raise e
               end, data_logger)) as Hcall.
  { intros. unfold cost_function, cost_function_body.
    destruct (reshape2 b (shape ref_surf)) as [shaped|e]; [|reflexivity].
    cbn [mbind result_bind]. rewrite forward_and_costs_raises.
    destruct (run_forward_core _ _ _ _ _); reflexivity. }
  split; [|split].
  - intros. unfold create_cost_func. rewrite inner_mask_of_raises.
    reflexivity.
  - exact Hcall.
  - intros. rewrite Hcall. cbn [fst].
    destruct (reshape2 b (shape ref_surf)) as [shaped|e]; [|reflexivity].
    destruct (run_forward_core _ _ _ _ _); reflexivity.
Qed.
End CostFunctionProperties.

(** ** Evaluations on the 3 x 3 grid *)

(** C8 on the 3 x 3 grid: the construction of the cost function raises,
    and the evaluation for the flat vector of the bed returns no cost and
    no gradient, of any dtype or shape; both raise [AttributeError] at the
    misspelt [unsqeeze], of line 68 and of line 141. *)
Theorem cost_function_returns_no_pair_on_grid3 :
  create_cost_func unit Grid3.mock_forward Grid3.mock_backward Grid3.gdir
    Grid3.no_lambdas 1%Q 1%Q tt
  = Raise (AttributeError "unsqeeze")
  ∧ (cost_function unit Grid3.mock_forward Grid3.mock_backward Grid3.b9
       Grid3.no_lambdas Grid3.surf3 Grid3.one3 Grid3.centre3 Grid3.surf3
       Grid3.conv_filter 1%Q 1%Q tt None).1
    = Raise (AttributeError "unsqeeze").
Proof. split; vm_compute; reflexivity. Qed.

(** C9 on the 3 x 3 grid: two successive evaluations for the same bed
    vector both raise [AttributeError]; neither returns a cost and a
    gradient that could be compared. *)
Theorem cost_function_twice_raises_on_grid3 :
  let evaluate lg :=
    cost_function unit Grid3.mock_forward Grid3.mock_backward Grid3.b9
      Grid3.no_lambdas Grid3.surf3 Grid3.one3 Grid3.centre3 Grid3.surf3
      Grid3.conv_filter 1%Q 1%Q tt lg in
  let first := evaluate (Some Grid3.empty_logger) in
  let second := evaluate first.2 in
  first.1 = Raise (AttributeError "unsqeeze")
  ∧ second.1 = Raise (AttributeError "unsqeeze")
  ∧ returns first.1 = false ∧ returns second.1 = false.
Proof. vm_compute. repeat split; reflexivity. Qed.

(** C4 on the 3 x 3 grid: an evaluation with an attached, empty logger
    raises and appends nothing; and the append of line 159, were it
    reached, puts the summed cost [c], an array of no dimension holding one
    number, into [data_logger.c_terms], not the ten-slot tensor. *)
Theorem cost_function_logs_no_breakdown :
  cost_function unit Grid3.mock_forward Grid3.mock_backward Grid3.b9
    Grid3.no_lambdas Grid3.surf3 Grid3.one3 Grid3.centre3 Grid3.surf3
    Grid3.conv_filter 1%Q 1%Q tt (Some Grid3.empty_logger)
  = (Raise (AttributeError "unsqeeze"), Some Grid3.empty_logger)
  ∧ ∀ (lg : DataLogger.t Q) (c : Q) (cost grad : ndarray Q)
      (guessed_bed model_surf : tensor Q),
      ∃ lg', log_data (Some lg) c cost grad guessed_bed model_surf = Some lg'
             ∧ DataLogger.c_terms lg'
               = DataLogger.c_terms lg
                 ++ [{| nd_dtype := Float32; nd_shape := []; nd_data := [c] |}].
Proof.
  split; [vm_compute; reflexivity|].
  intros. eexists. split; reflexivity.
Qed.

(** ** The theorems at concrete inputs *)

(** The last slot with all nine weights zero. *)
Lemma get_costs_last_slot_is_misfit_witness :
  (9 ≤ length Grid3.no_lambdas)%nat
  ∧ ∃ c, get_costs Grid3.no_lambdas Grid3.zero3 Grid3.one3 Grid3.zero3
           Grid3.bed3 Grid3.surf3 Grid3.centre3 Grid3.centre3 1%Q = Ok c
         ∧ length (values c) = 10%nat
         ∧ getitem (values c) (-1)
           = Ok (fdiv (tsum (tpow (tsub Grid3.zero3 Grid3.surf3) 2))
                      (tsum Grid3.one3)).
Proof.
  split; [vm_compute; lia|].
  apply (get_costs_last_slot_is_misfit Grid3.no_lambdas Grid3.zero3 Grid3.one3
           Grid3.zero3 Grid3.bed3 Grid3.surf3 Grid3.centre3 Grid3.centre3 1%Q).
  vm_compute; lia.
Defined.

(** The two curvature terms with all nine weights one. *)
Lemma curvature_terms_normalization_witness :
  ((9 ≤ length Grid3.all_lambdas)%nat
   ∧ Grid3.all_lambdas !! 4%nat = Some 1%Q ∧ fne 1%Q (of_Z 0) = true
   ∧ Grid3.all_lambdas !! 5%nat = Some 1%Q ∧ fne 1%Q (of_Z 0) = true)
  ∧ ∃ c, get_costs Grid3.all_lambdas Grid3.zero3 Grid3.one3 Grid3.zero3
           Grid3.bed3 Grid3.surf3 Grid3.centre3 Grid3.centre3 1%Q = Ok c
         ∧ values c !! 4%nat
           = Some (fmul 1%Q
                     (fdiv (curvature_sq (tsub Grid3.surf3 Grid3.bed3)
                                         Grid3.centre3 1%Q)
                           (tsum Grid3.centre3)))
         ∧ values c !! 5%nat
           = Some (fmul 1%Q
                     (fdiv (curvature_sq Grid3.bed3 Grid3.centre3 1%Q)
                           (fmul (of_Z 2) (tsum Grid3.centre3)))).
Proof.
  split.
  - repeat split; solve [reflexivity | vm_compute; lia].
  - apply (curvature_terms_normalization Grid3.all_lambdas 1%Q 1%Q Grid3.zero3
             Grid3.one3 Grid3.zero3 Grid3.bed3 Grid3.surf3 Grid3.centre3
             Grid3.centre3 1%Q);
      solve [reflexivity | vm_compute; lia].
Defined.

(** The skipped boundary ring term, index 6, in the flagged arithmetic, with
    a reference ice mask equal to the model's inner mask: the ring is empty
    and its normalizer zero, and slot 6 is the zero with the flag unset. *)
Lemma zero_lambda_skips_term_witness :
  ((9 ≤ length (Grid3.unflagged1 (Grid3.only_lambda 1 1%Q)))%nat
   ∧ (6 < 9)%nat
   ∧ Grid3.unflagged1 (Grid3.only_lambda 1 1%Q) !! 6%nat
     = Some (Grid3.unflagged 0%Q)
   ∧ fne (Grid3.unflagged 0%Q) (of_Z 0) = false)
  ∧ ∃ c, get_costs (Grid3.unflagged1 (Grid3.only_lambda 1 1%Q))
           (Grid3.unflagged2 Grid3.zero3) (Grid3.unflagged2 Grid3.centre3)
           (Grid3.unflagged2 Grid3.zero3) (Grid3.unflagged2 Grid3.bed3)
           (Grid3.unflagged2 Grid3.surf3) (Grid3.unflagged2 Grid3.centre3)
           (Grid3.unflagged2 Grid3.centre3) (Grid3.unflagged 1%Q) = Ok c
         ∧ values c !! 6%nat = Some (of_Z 0)
         ∧ ∀ x : Q * bool,
             ∃ c', get_costs
                     (<[6%nat := x]>
                        (Grid3.unflagged1 (Grid3.only_lambda 1 1%Q)))
                     (Grid3.unflagged2 Grid3.zero3)
                     (Grid3.unflagged2 Grid3.centre3)
                     (Grid3.unflagged2 Grid3.zero3)
                     (Grid3.unflagged2 Grid3.bed3)
                     (Grid3.unflagged2 Grid3.surf3)
                     (Grid3.unflagged2 Grid3.centre3)
                     (Grid3.unflagged2 Grid3.centre3)
                     (Grid3.unflagged 1%Q) = Ok c'
                   ∧ (∀ j : nat,
                        j ≠ 6%nat → values c' !! j = values c !! j)
                   ∧ (6%nat ≠ 8%nat → custom_node c' = custom_node c).
Proof.
  split.
  - repeat split; solve [reflexivity | vm_compute; lia].
  - apply (zero_lambda_skips_term
             (Grid3.unflagged1 (Grid3.only_lambda 1 1%Q)) 6
             (Grid3.unflagged 0%Q)
             (Grid3.unflagged2 Grid3.zero3) (Grid3.unflagged2 Grid3.centre3)
             (Grid3.unflagged2 Grid3.zero3) (Grid3.unflagged2 Grid3.bed3)
             (Grid3.unflagged2 Grid3.surf3) (Grid3.unflagged2 Grid3.centre3)
             (Grid3.unflagged2 Grid3.centre3) (Grid3.unflagged 1%Q));
      solve [reflexivity | vm_compute; lia].
Defined.

(** On the same fields with the weight of index 6 set to 1 the term is
    computed, and its division by the zero normalizer shows in slot 6. *)
Lemma ring_term_divides_by_zero_when_enabled :
  ∃ c v, get_costs (Grid3.unflagged1 (Grid3.only_lambda 6 1%Q))
           (Grid3.unflagged2 Grid3.zero3) (Grid3.unflagged2 Grid3.centre3)
           (Grid3.unflagged2 Grid3.zero3) (Grid3.unflagged2 Grid3.bed3)
           (Grid3.unflagged2 Grid3.surf3) (Grid3.unflagged2 Grid3.centre3)
           (Grid3.unflagged2 Grid3.centre3) (Grid3.unflagged 1%Q) = Ok c
         ∧ values c !! 6%nat = Some (v, true).
Proof. eexists _, _. split; vm_compute; reflexivity. Qed.

(** The custom term with the weight 3. *)
Lemma lmsd_gradient_not_scaled_by_lambda_witness :
  (Grid3.only_lambda 8 3%Q !! 8%nat = Some 3%Q ∧ fne 3%Q (of_Z 0) = true)
  ∧ (∀ (node : LMSD.ctx Q) (g1 g2 : Q),
        LMSD.backward node g1 = LMSD.backward node g2)
  ∧ ∃ c node,
      get_costs (Grid3.only_lambda 8 3%Q) Grid3.zero3 Grid3.one3 Grid3.zero3
        Grid3.bed3 Grid3.surf3 Grid3.centre3 Grid3.centre3 1%Q = Ok c
      ∧ custom_node c = Some (3%Q, node)
      ∧ (∀ grad_output : Q,
           LMSD.backward node grad_output
           = Ok (None, None, None, None,
                 Some (tmul (tsub Grid3.surf3 Grid3.zero3) Grid3.one3)))
      ∧ injected_bed_grad c
        = Ok (Some (tmul (tsub Grid3.surf3 Grid3.zero3) Grid3.one3)).
Proof.
  split.
  - split; reflexivity.
  - apply (lmsd_gradient_not_scaled_by_lambda (Grid3.only_lambda 8 3%Q) 3%Q
             Grid3.zero3 Grid3.one3 Grid3.zero3 Grid3.bed3 Grid3.surf3
             Grid3.centre3 Grid3.centre3 1%Q); reflexivity.
Defined.

(** * Further properties *)

(** ** Slices, cells and shapes *)

Lemma pyslice_all {A : Type} (l : list A) : pyslice None None l = l.
Proof.
  unfold pyslice. cbn [from_option]. rewrite Nat.sub_0_r, drop_0.
  apply firstn_all.
Qed.

Lemma pyslice_upto2_take {A : Type} (l : list A) :
  pyslice None (Some (-2)) l = take (length l - 2) l.
Proof.
  unfold pyslice, clamp_index. cbn [from_option].
  rewrite Nat.sub_0_r, drop_0. f_equal.
  change (-2 <? 0) with true. cbn match. lia.
Qed.

Lemma pyslice_from2_drop {A : Type} (l : list A) :
  pyslice (Some 2) None l = drop 2 l.
Proof.
  unfold pyslice, clamp_index. cbn [from_option].
  change (2 <? 0) with false. cbn match.
  destruct (decide (length l < 2)%nat) as [Hs|Hl].
  - replace (Z.to_nat (Z.of_nat (length l) `min` (0 `max` 2)))
      with (length l) by lia.
    rewrite Nat.sub_diag, take_0. symmetry. apply drop_ge. lia.
  - replace (Z.to_nat (Z.of_nat (length l) `min` (0 `max` 2)))
      with 2%nat by lia.
    apply take_ge. rewrite length_drop. lia.
Qed.

Lemma pyslice_inner_take {A : Type} (l : list A) :
  pyslice (Some 1) (Some (-1)) l = take (length l - 2) (drop 1 l).
Proof.
  unfold pyslice, clamp_index. cbn [from_option].
  change (1 <? 0) with false. change (-1 <? 0) with true. cbn match.
  destruct l as [|x l]; [reflexivity|].
  f_equal; [|f_equal]; cbn [length]; lia.
Qed.

Lemma lookup_map_list {A B : Type} (g : A → B) (l : list A) (i : nat) :
  map g l !! i = g <$> l !! i.
Proof.
  revert i. induction l as [|x l IH]; intros [|i]; cbn; auto.
Qed.

Lemma Forall_rows_concat {A : Type} (P : A → Prop) (t : list (list A)) :
  Forall (Forall P) t → Forall P (concat t).
Proof.
  induction 1 as [|row t Hrow _ IH]; [constructor|].
  cbn. apply Forall_app. split; assumption.
Qed.

Section Cells.
Context {F : Type} `{!Scalar F}.
Implicit Types (t f mask : tensor F).

Lemma cell_map_rows (g : list F → list F) t r c :
  cell (map g t) r c = (row ← t !! r; g row !! c).
Proof.
  unfold cell, tensor in *. rewrite lookup_map_list.
  destruct (t !! r); reflexivity.
Qed.

Lemma cell_tmap (g : F → F) t r c : cell (tmap g t) r c = g <$> cell t r c.
Proof.
  unfold tmap. rewrite cell_map_rows. unfold cell, tensor in *.
  destruct (t !! r) as [row|]; cbn; [apply lookup_map_list|reflexivity].
Qed.

Lemma cell_tzip (g : F → F → F) a b r c x y :
  cell a r c = Some x → cell b r c = Some y →
  cell (tzip g a b) r c = Some (g x y).
Proof.
  unfold cell, tzip, tensor in *. intros Ha Hb. rewrite lookup_zip_with.
  destruct (a !! r) as [ra|]; [|discriminate].
  destruct (b !! r) as [rb|]; [|discriminate].
  cbn in *. rewrite lookup_zip_with, Ha, Hb. reflexivity.
Qed.

Lemma has_shape_row h w t r :
  has_shape h w t → (r < h)%nat → ∃ row, t !! r = Some row ∧ length row = w.
Proof.
  intros [Hh Hw] Hr. unfold tensor in *.
  destruct (lookup_lt_is_Some_2 t r) as [row Hrow]; [lia|].
  exists row. split; [exact Hrow|].
  rewrite Forall_lookup in Hw. exact (Hw r row Hrow).
Qed.

Lemma has_shape_cell h w t r c :
  has_shape h w t → (r < h)%nat → (c < w)%nat → is_Some (cell t r c).
Proof.
  intros Hs Hr Hc.
  destruct (has_shape_row h w t r Hs Hr) as (row & Hrow & Hlen).
  unfold cell, tensor in *. rewrite Hrow. cbn.
  apply lookup_lt_is_Some_2. lia.
Qed.

Lemma map_pyslice_all t : map (pyslice None None) t = t.
Proof.
  rewrite <- (map_id t) at 2. apply map_ext. intros. apply pyslice_all.
Qed.

Lemma slice2_cols_upto2 t :
  slice2 t all_ (upto (-2)) = map (fun row => take (length row - 2) row) t.
Proof.
  unfold slice2, all_, upto. cbn [fst snd]. rewrite pyslice_all.
  apply map_ext. intros. apply pyslice_upto2_take.
Qed.

Lemma slice2_cols_from2 t : slice2 t all_ (from 2) = map (drop 2) t.
Proof.
  unfold slice2, all_, from. cbn [fst snd]. rewrite pyslice_all.
  apply map_ext. intros. apply pyslice_from2_drop.
Qed.

Lemma slice2_cols_inner t :
  slice2 t all_ (range 1 (-1))
  = map (fun row => take (length row - 2) (drop 1 row)) t.
Proof.
  unfold slice2, all_, range. cbn [fst snd]. rewrite pyslice_all.
  apply map_ext. intros. apply pyslice_inner_take.
Qed.

Lemma slice2_rows_upto2 t : slice2 t (upto (-2)) all_ = take (length t - 2) t.
Proof.
  unfold slice2, all_, upto. cbn [fst snd].
  rewrite map_pyslice_all. apply pyslice_upto2_take.
Qed.

Lemma slice2_rows_from2 t : slice2 t (from 2) all_ = drop 2 t.
Proof.
  unfold slice2, all_, from. cbn [fst snd].
  rewrite map_pyslice_all. apply pyslice_from2_drop.
Qed.

Lemma slice2_rows_inner t :
  slice2 t (range 1 (-1)) all_ = take (length t - 2) (drop 1 t).
Proof.
  unfold slice2, all_, range. cbn [fst snd].
  rewrite map_pyslice_all. apply pyslice_inner_take.
Qed.

(** The cells of the six slices, inside a tensor of [h] rows and [w]
    columns. *)
Lemma cell_cols_upto2 h w t r c :
  has_shape h w t → (r < h)%nat → (c + 2 < w)%nat →
  cell (slice2 t all_ (upto (-2))) r c = cell t r c.
Proof.
  intros Hs Hr Hc.
  destruct (has_shape_row h w t r Hs Hr) as (row & Hrow & Hlen).
  rewrite slice2_cols_upto2, cell_map_rows. unfold cell, tensor in *.
  rewrite Hrow. cbn. apply lookup_take_lt. lia.
Qed.

Lemma cell_cols_from2 t r c :
  cell (slice2 t all_ (from 2)) r c = cell t r (c + 2).
Proof.
  rewrite slice2_cols_from2, cell_map_rows. unfold cell, tensor in *.
  destruct (t !! r) as [row|]; [|reflexivity]. cbn.
  rewrite lookup_drop. f_equal. lia.
Qed.

Lemma cell_cols_inner h w t r c :
  has_shape h w t → (r < h)%nat → (c + 2 < w)%nat →
  cell (slice2 t all_ (range 1 (-1))) r c = cell t r (c + 1).
Proof.
  intros Hs Hr Hc.
  destruct (has_shape_row h w t r Hs Hr) as (row & Hrow & Hlen).
  rewrite slice2_cols_inner, cell_map_rows. unfold cell, tensor in *.
  rewrite Hrow. cbn.
  rewrite lookup_take_lt by lia. rewrite lookup_drop. f_equal. lia.
Qed.

Lemma cell_rows_upto2 t r c :
  (r + 2 < length t)%nat →
  cell (slice2 t (upto (-2)) all_) r c = cell t r c.
Proof.
  intros Hr. rewrite slice2_rows_upto2. unfold cell, tensor in *.
  rewrite lookup_take_lt by lia. reflexivity.
Qed.

Lemma cell_rows_from2 t r c :
  cell (slice2 t (from 2) all_) r c = cell t (r + 2) c.
Proof.
  rewrite slice2_rows_from2. unfold cell, tensor in *. rewrite lookup_drop.
  replace (2 + r)%nat with (r + 2)%nat by lia. reflexivity.
Qed.

Lemma cell_rows_inner t r c :
  (r + 2 < length t)%nat →
  cell (slice2 t (range 1 (-1)) all_) r c = cell t (r + 1) c.
Proof.
  intros Hr. rewrite slice2_rows_inner. unfold cell, tensor in *.
  rewrite lookup_take_lt by lia. rewrite lookup_drop.
  replace (1 + r)%nat with (r + 1)%nat by lia. reflexivity.
Qed.
End Cells.

Section Shapes.
Context {F : Type} `{!Scalar F}.
Implicit Types (t f mask : tensor F).

Lemma has_shape_tmap (g : F → F) h w t :
  has_shape h w t → has_shape h w (tmap g t).
Proof.
  intros [Hh Hw]. unfold tmap. split; [rewrite length_map; exact Hh|].
  apply Forall_map. eapply Forall_impl; [exact Hw|].
  intros row Hrow. cbn. rewrite length_map. exact Hrow.
Qed.

Lemma has_shape_tzip (g : F → F → F) h w a b :
  has_shape h w a → has_shape h w b → has_shape h w (tzip g a b).
Proof.
  intros [Ha Hwa] [Hb Hwb]. unfold tzip, tensor in *. split.
  - rewrite length_zip_with. lia.
  - apply Forall_lookup. intros i row Hrow.
    rewrite lookup_zip_with in Hrow.
    destruct (a !! i) as [ra|] eqn:Hra; [|discriminate].
    destruct (b !! i) as [rb|] eqn:Hrb; [|discriminate].
    cbn in Hrow. injection Hrow as <-.
    rewrite Forall_lookup in Hwa, Hwb.
    rewrite length_zip_with, (Hwa i ra Hra), (Hwb i rb Hrb). lia.
Qed.

Lemma has_shape_map_rows (g : list F → list F) h w w' t :
  (∀ row, length row = w → length (g row) = w') →
  has_shape h w t → has_shape h w' (map g t).
Proof.
  intros Hg [Hh Hw]. split; [rewrite length_map; exact Hh|].
  apply Forall_map. eapply Forall_impl; [exact Hw|].
  intros row Hrow. cbn. auto.
Qed.

Lemma has_shape_cols h w t (cs : slice_spec) :
  cs = upto (-2) ∨ cs = from 2 ∨ cs = range 1 (-1) →
  has_shape h w t → has_shape h (w - 2) (slice2 t all_ cs).
Proof.
  intros [->|[->| ->]] Hs.
  - rewrite slice2_cols_upto2. eapply has_shape_map_rows; [|exact Hs].
    intros row Hrow. rewrite length_take. lia.
  - rewrite slice2_cols_from2. eapply has_shape_map_rows; [|exact Hs].
    intros row Hrow. rewrite length_drop. lia.
  - rewrite slice2_cols_inner. eapply has_shape_map_rows; [|exact Hs].
    intros row Hrow. rewrite length_take, length_drop. lia.
Qed.

Lemma has_shape_rows h w t (rs : slice_spec) :
  rs = upto (-2) ∨ rs = from 2 ∨ rs = range 1 (-1) →
  has_shape h w t → has_shape (h - 2) w (slice2 t rs all_).
Proof.
  intros Hrs [Hh Hw]. unfold tensor in *.
  destruct Hrs as [->|[->| ->]].
  - rewrite slice2_rows_upto2. split; [rewrite length_take; lia|].
    apply Forall_take. exact Hw.
  - rewrite slice2_rows_from2. split; [rewrite length_drop; lia|].
    apply Forall_drop. exact Hw.
  - rewrite slice2_rows_inner.
    split; [rewrite length_take, length_drop; lia|].
    apply Forall_take, Forall_drop. exact Hw.
Qed.

Lemma numel_has_shape h w t : has_shape h w t → numel t = (h * w)%nat.
Proof.
  intros [Hh Hw]. unfold numel. subst h.
  induction Hw as [|row t Hrow _ IH]; [reflexivity|].
  cbn. rewrite length_app, IH, Hrow. lia.
Qed.
End Shapes.

(** ** The difference operators of [get_costs], cell by cell *)

Section Stencils.
Context {F : Type} `{!Scalar F}.
Implicit Types (f mask : tensor F).

(** X5: on a field and a mask of [h] rows and [w] columns, the masked
    differences and curvatures along the columns have [h] rows and [w - 2]
    columns, and those along the rows have [h - 2] rows and [w] columns:
    the three slices of every operator and the slice of the mask line
    up. *)
Theorem difference_operators_shapes h w f mask (d dx : F) :
  has_shape h w f → has_shape h w mask →
  has_shape h (w - 2) (masked_diff_x f mask d)
  ∧ has_shape (h - 2) w (masked_diff_y f mask d)
  ∧ has_shape h (w - 2) (curvature_x f mask dx)
  ∧ has_shape (h - 2) w (curvature_y f mask dx).
Proof.
  intros Hf Hm.
  unfold masked_diff_x, masked_diff_y, curvature_x, curvature_y,
    tmul, tsub, tadd, tdiv_s, smul_t.
  split; [|split; [|split]];
    repeat first
      [ apply has_shape_tzip | apply has_shape_tmap
      | apply has_shape_cols; [auto|] | apply has_shape_rows; [auto|]
      | assumption ].
Qed.

(** X3: at an interior cell of the grid, with west and east neighbours [W]
    and [E] in its row, north and south neighbours [N] and [S] in its
    column and mask value [M] at the cell itself, the masked difference
    along the columns is [(W - E) / d * M] and the one along the rows is
    [(N - S) / d * M]; the first is stored one column, the second one row
    before the cell. *)
Theorem masked_difference_stencil h w f mask (d : F) (r c : nat) :
  has_shape h w f → has_shape h w mask →
  (r + 2 < h)%nat → (c + 2 < w)%nat →
  ∃ W E N S M : F,
    cell f (r + 1) c = Some W ∧ cell f (r + 1) (c + 2) = Some E
    ∧ cell f r (c + 1) = Some N ∧ cell f (r + 2) (c + 1) = Some S
    ∧ cell mask (r + 1) (c + 1) = Some M
    ∧ cell (masked_diff_x f mask d) (r + 1) c
      = Some (fmul (fdiv (fsub W E) d) M)
    ∧ cell (masked_diff_y f mask d) r (c + 1)
      = Some (fmul (fdiv (fsub N S) d) M).
Proof.
  intros Hf Hm Hr Hc.
  destruct (has_shape_cell h w f (r + 1) c Hf) as [W HW]; [lia..|].
  destruct (has_shape_cell h w f (r + 1) (c + 2) Hf) as [E HE]; [lia..|].
  destruct (has_shape_cell h w f r (c + 1) Hf) as [N HN]; [lia..|].
  destruct (has_shape_cell h w f (r + 2) (c + 1) Hf) as [S HS]; [lia..|].
  destruct (has_shape_cell h w mask (r + 1) (c + 1) Hm) as [M HM]; [lia..|].
  exists W, E, N, S, M. repeat (split; [assumption|]).
  assert (length f = h) as Hlf by apply Hf.
  assert (length mask = h) as Hlm by apply Hm.
  unfold masked_diff_x, masked_diff_y, tmul, tsub, tdiv_s. split.
  - apply cell_tzip.
    + rewrite cell_tmap.
      erewrite cell_tzip; [reflexivity| |].
      * rewrite (cell_cols_upto2 h w) by (assumption || lia). exact HW.
      * rewrite cell_cols_from2. exact HE.
    + rewrite (cell_cols_inner h w) by (assumption || lia). exact HM.
  - apply cell_tzip.
    + rewrite cell_tmap.
      erewrite cell_tzip; [reflexivity| |].
      * rewrite cell_rows_upto2 by lia. exact HN.
      * rewrite cell_rows_from2. exact HS.
    + rewrite cell_rows_inner by lia. exact HM.
Qed.

(** X4: at an interior cell with value [C], neighbours [W], [E], [N], [S]
    and mask value [M], the masked curvature along the columns is
    [(W + E - 2 * C) / dx ** 2 * M] and the one along the rows is
    [(N + S - 2 * C) / dx ** 2 * M]. *)
Theorem curvature_stencil h w f mask (dx : F) (r c : nat) :
  has_shape h w f → has_shape h w mask →
  (r + 2 < h)%nat → (c + 2 < w)%nat →
  ∃ W E N S C M : F,
    cell f (r + 1) c = Some W ∧ cell f (r + 1) (c + 2) = Some E
    ∧ cell f r (c + 1) = Some N ∧ cell f (r + 2) (c + 1) = Some S
    ∧ cell f (r + 1) (c + 1) = Some C
    ∧ cell mask (r + 1) (c + 1) = Some M
    ∧ cell (curvature_x f mask dx) (r + 1) c
      = Some (fmul (fdiv (fsub (fadd W E) (fmul (of_Z 2) C)) (fpow dx 2)) M)
    ∧ cell (curvature_y f mask dx) r (c + 1)
      = Some (fmul (fdiv (fsub (fadd N S) (fmul (of_Z 2) C)) (fpow dx 2)) M).
Proof.
  intros Hf Hm Hr Hc.
  destruct (has_shape_cell h w f (r + 1) c Hf) as [W HW]; [lia..|].
  destruct (has_shape_cell h w f (r + 1) (c + 2) Hf) as [E HE]; [lia..|].
  destruct (has_shape_cell h w f r (c + 1) Hf) as [N HN]; [lia..|].
  destruct (has_shape_cell h w f (r + 2) (c + 1) Hf) as [S HS]; [lia..|].
  destruct (has_shape_cell h w f (r + 1) (c + 1) Hf) as [C HC]; [lia..|].
  destruct (has_shape_cell h w mask (r + 1) (c + 1) Hm) as [M HM]; [lia..|].
  exists W, E, N, S, C, M. repeat (split; [assumption|]).
  assert (length f = h) as Hlf by apply Hf.
  assert (length mask = h) as Hlm by apply Hm.
  unfold curvature_x, curvature_y, tmul, tsub, tadd, tdiv_s, smul_t.
  cbv zeta. split.
  - apply cell_tzip.
    + rewrite cell_tmap.
      erewrite cell_tzip; [reflexivity| |].
      * apply cell_tzip.
        -- rewrite (cell_cols_upto2 h w) by (assumption || lia). exact HW.
        -- rewrite cell_cols_from2. exact HE.
      * rewrite cell_tmap, (cell_cols_inner h w) by (assumption || lia).
        rewrite HC. reflexivity.
    + rewrite (cell_cols_inner h w) by (assumption || lia). exact HM.
  - apply cell_tzip.
    + rewrite cell_tmap.
      erewrite cell_tzip; [reflexivity| |].
      * apply cell_tzip.
        -- rewrite cell_rows_upto2 by lia. exact HN.
        -- rewrite cell_rows_from2. exact HS.
      * rewrite cell_tmap, cell_rows_inner by lia.
        rewrite HC. reflexivity.
    + rewrite cell_rows_inner by lia. exact HM.
Qed.

(** X6: on tensors of one shape, the tensor [backward] returns in the
    position of [bed] has that shape, and its cell at any place is
    [(a - b) * m] for the cells [a] of [modelled_surf], [b] of
    [surface_to_match] and [m] of [ice_mask] at that place; [ice_region],
    [bed] and [grad_output] do not enter. *)
Theorem lmsd_gradient_cells h w
    (modelled_surf surface_to_match ice_region ice_mask bed : tensor F)
    (grad_output : F) :
  has_shape h w modelled_surf → has_shape h w surface_to_match →
  has_shape h w ice_mask →
  ∃ g, LMSD.backward
         (LMSD.forward modelled_surf surface_to_match ice_region ice_mask
            bed).1 grad_output
       = Ok (None, None, None, None, Some g)
       ∧ has_shape h w g
       ∧ ∀ r c a b m,
           cell modelled_surf r c = Some a →
           cell surface_to_match r c = Some b →
           cell ice_mask r c = Some m →
           cell g r c = Some (fmul (fsub a b) m).
Proof.
  intros Hms Hos Hmask. eexists. split; [apply backward_of_forward|].
  split.
  - unfold tmul, tsub. repeat apply has_shape_tzip; assumption.
  - intros r c a b m Ha Hb Hm. unfold tmul, tsub.
    apply cell_tzip; [apply cell_tzip|]; assumption.
Qed.
End Stencils.

(** ** What [get_costs] reads and when it raises *)

Section GetCostsInputs.
Context {F : Type} `{!Scalar F}.
Implicit Types (lambdas : list F) (dx : F).
Implicit Types
  (ref_surf ref_ice_mask ref_inner_mask guessed_bed : tensor F)
  (model_surf model_ice_mask model_inner_mask : tensor F).

Lemma get_costs_short lambdas
    ref_surf ref_ice_mask ref_inner_mask guessed_bed
    model_surf model_ice_mask model_inner_mask dx :
  (length lambdas < 9)%nat →
  get_costs lambdas ref_surf ref_ice_mask ref_inner_mask guessed_bed
    model_surf model_ice_mask model_inner_mask dx = Raise IndexError.
Proof.
  intros Hlen.
  do 9 (destruct lambdas as [|? lambdas]; [reflexivity|]).
  simpl in Hlen. lia.
Qed.

(** X1: [get_costs] raises [IndexError] exactly when it is given fewer than
    nine weights, whatever the fields and whichever weights are zero: the
    weights are indexed up to [lambdas[8]] before anything is returned. *)
Theorem get_costs_IndexError_iff lambdas
    ref_surf ref_ice_mask ref_inner_mask guessed_bed
    model_surf model_ice_mask model_inner_mask dx :
  get_costs lambdas ref_surf ref_ice_mask ref_inner_mask guessed_bed
    model_surf model_ice_mask model_inner_mask dx = Raise IndexError
  ↔ (length lambdas < 9)%nat.
Proof.
  split; [|apply get_costs_short].
  intros Hraise. destruct (decide (length lambdas < 9)%nat) as [|Hlen];
    [assumption|exfalso].
  destruct (nine_entries lambdas)
    as (l0 & l1 & l2 & l3 & l4 & l5 & l6 & l7 & l8 & rest & ->); [lia|].
  rewrite get_costs_nine in Hraise. discriminate.
Qed.

(** [get_costs] reads neither [ref_inner_mask] nor [model_ice_mask]:
    for all other arguments, also with too few weights, its outcome is the
    same for any two values of these two parameters. *)
Lemma get_costs_ignores_two_masks lambdas
    ref_surf ref_ice_mask ref_inner_mask guessed_bed
    model_surf model_ice_mask model_inner_mask dx
    (ref_inner_mask' model_ice_mask' : tensor F) :
  get_costs lambdas ref_surf ref_ice_mask ref_inner_mask guessed_bed
    model_surf model_ice_mask model_inner_mask dx
  = get_costs lambdas ref_surf ref_ice_mask ref_inner_mask' guessed_bed
      model_surf model_ice_mask' model_inner_mask dx.
Proof. reflexivity. Qed.

(** X2: the bed terms of the slots 1, 3, 5 and 6 do not read the model
    surface, and the surface terms of the slots 7 and 9 do not read the
    guessed bed: with the other arguments fixed, another model surface
    leaves the first four slots as they are and another bed the last
    two. *)
Theorem slots_read_bed_or_surface lambdas
    ref_surf ref_ice_mask ref_inner_mask guessed_bed
    model_surf model_ice_mask model_inner_mask dx
    (guessed_bed' model_surf' : tensor F) :
  (9 ≤ length lambdas)%nat →
  ∃ c c1 c2,
    get_costs lambdas ref_surf ref_ice_mask ref_inner_mask guessed_bed
      model_surf model_ice_mask model_inner_mask dx = Ok c
    ∧ get_costs lambdas ref_surf ref_ice_mask ref_inner_mask guessed_bed
        model_surf' model_ice_mask model_inner_mask dx = Ok c1
    ∧ get_costs lambdas ref_surf ref_ice_mask ref_inner_mask guessed_bed'
        model_surf model_ice_mask model_inner_mask dx = Ok c2
    ∧ (∀ j : nat, j = 1%nat ∨ j = 3%nat ∨ j = 5%nat ∨ j = 6%nat →
         values c1 !! j = values c !! j)
    ∧ (∀ j : nat, j = 7%nat ∨ j = 9%nat →
         values c2 !! j = values c !! j).
Proof.
  intros Hlen.
  destruct (nine_entries lambdas Hlen)
    as (l0 & l1 & l2 & l3 & l4 & l5 & l6 & l7 & l8 & rest & ->).
  eexists _, _, _. rewrite !get_costs_nine.
  repeat (split; [reflexivity|]).
  split; intros j Hj; intuition subst; reflexivity.
Qed.
End GetCostsInputs.

(** ** Divisions by zero, in the flagged arithmetic *)

Lemma Qred_inject_Z (z : Z) : Qred (inject_Z z) = inject_Z z.
Proof.
  unfold Qred, inject_Z.
  generalize (Z.ggcd_gcd z 1), (Z.ggcd_correct_divisors z 1).
  destruct (Z.ggcd z 1) as (g, (aa, bb)). cbn [fst snd].
  rewrite Z.gcd_1_r. intros -> [Ha Hb].
  rewrite Z.mul_1_l in Ha, Hb. subst aa bb. reflexivity.
Qed.

Lemma Qred_eq_inject_Z (q : Q) (z : Z) :
  (q == inject_Z z)%Q → Qred q = inject_Z z.
Proof. intros Hq. rewrite <- Qred_inject_Z. apply Qred_complete, Hq. Qed.

Lemma fold_fadd_zero (l : list (Q * bool)) :
  Forall (fun y => y = (0%Q, false)) l →
  fold_left fadd l (0%Q, false) = (0%Q, false).
Proof.
  induction 1 as [|y l -> _ IH]; [reflexivity|]. cbn [fold_left]. exact IH.
Qed.

Lemma fold_fadd_ones (l : list (Q * bool)) (k : Z) :
  Forall (fun y => y = (1%Q, false)) l →
  fold_left fadd l (inject_Z k, false)
  = (inject_Z (k + Z.of_nat (length l)), false).
Proof.
  intros Hl. revert k. induction Hl as [|y l -> _ IH]; intros k.
  - cbn. rewrite Z.add_0_r. reflexivity.
  - cbn [fold_left length].
    replace (fadd (inject_Z k, false) (1%Q, false))
      with (inject_Z (k + 1), false).
    + rewrite IH. do 2 f_equal. lia.
    + cbn. f_equal. symmetry. apply Qred_eq_inject_Z.
      rewrite inject_Z_plus. reflexivity.
Qed.

Lemma tsum_all_zero (t : tensor (Q * bool)) :
  all_entries (0%Q, false) t → tsum t = (0%Q, false).
Proof.
  intros Ht. unfold tsum. apply fold_fadd_zero, Forall_rows_concat, Ht.
Qed.

Lemma tsum_all_one h w (t : tensor (Q * bool)) :
  has_shape h w t → all_entries (1%Q, false) t →
  tsum t = (inject_Z (Z.of_nat (h * w)), false).
Proof.
  intros Hs Ht. unfold tsum.
  change (of_Z 0) with (inject_Z 0, false).
  rewrite fold_fadd_ones by apply Forall_rows_concat, Ht.
  fold (numel t). rewrite (numel_has_shape h w t Hs). reflexivity.
Qed.

Lemma all_entries_unflagged2 (q : Q) (t : tensor Q) :
  all_entries q t → all_entries (q, false) (Grid3.unflagged2 t).
Proof.
  intros Ht. unfold all_entries, Grid3.unflagged2, Grid3.unflagged1.
  apply Forall_map. eapply Forall_impl; [exact Ht|].
  intros row Hrow. cbn. apply Forall_map.
  eapply Forall_impl; [exact Hrow|]. intros y ->. reflexivity.
Qed.

Lemma has_shape_unflagged2 h w (t : tensor Q) :
  has_shape h w t → has_shape h w (Grid3.unflagged2 t).
Proof.
  intros [Hh Hw]. unfold Grid3.unflagged2, Grid3.unflagged1.
  split; [rewrite length_map; exact Hh|].
  apply Forall_map. eapply Forall_impl; [exact Hw|].
  intros row Hrow. cbn. rewrite length_map. exact Hrow.
Qed.

Lemma flagged_term_flag (l num den : Q * bool) :
  Qeq_bool den.1 0 = true → (fmul l (fdiv num den)).2 = true.
Proof.
  intros Hden.
  change ((l.2 || (num.2 || den.2 || Qeq_bool den.1 0)) = true).
  rewrite Hden, !orb_true_r. reflexivity.
Qed.

Lemma fne_unflagged (l : Q) :
  Qeq_bool l 0 = false → fne (Grid3.unflagged l) (of_Z 0) = true.
Proof.
  intros Hl. change (negb (Qeq_bool l 0) = true). rewrite Hl. reflexivity.
Qed.

Section DivisionByZero.
Import Grid3.
Implicit Types (lambdas : list Q) (dx : Q).
Implicit Types
  (ref_surf ref_ice_mask ref_inner_mask guessed_bed : tensor Q)
  (model_surf model_ice_mask model_inner_mask : tensor Q).

(** X7: when the model's inner mask is zero everywhere, every enabled term
    among the slots 0, 1, 4, 5 and 7 divides by zero: started from numbers
    with the flag unset, the slot carries the flag.  Nothing in
    [get_costs] guards the normalizer [n_inner_mask]. *)
Theorem empty_inner_mask_division_by_zero lambdas (i : nat) (li : Q)
    ref_surf ref_ice_mask ref_inner_mask guessed_bed
    model_surf model_ice_mask model_inner_mask dx :
  (9 ≤ length lambdas)%nat →
  (i = 0 ∨ i = 1 ∨ i = 4 ∨ i = 5 ∨ i = 7)%nat →
  lambdas !! i = Some li → Qeq_bool li 0 = false →
  all_entries 0%Q model_inner_mask →
  ∃ c v, get_costs (unflagged1 lambdas) (unflagged2 ref_surf)
           (unflagged2 ref_ice_mask) (unflagged2 ref_inner_mask)
           (unflagged2 guessed_bed) (unflagged2 model_surf)
           (unflagged2 model_ice_mask) (unflagged2 model_inner_mask)
           (unflagged dx) = Ok c
         ∧ values c !! i = Some (v, true).
Proof.
  intros Hlen Hi Hli Hne Hmask.
  destruct (nine_entries lambdas Hlen)
    as (l0 & l1 & l2 & l3 & l4 & l5 & l6 & l7 & l8 & rest & ->).
  pose proof (tsum_all_zero _ (all_entries_unflagged2 _ _ Hmask)) as Hsum.
  apply fne_unflagged in Hne.
  destruct Hi as [->|[->|[->|[->| ->]]]];
    cbn in Hli; injection Hli as ->;
    eexists _, _; (split; [apply get_costs_nine|]);
    cbn [values lookup list_lookup]; unfold slot, term; rewrite Hne, Hsum;
    f_equal; (apply injective_projections; [reflexivity|]);
    apply flagged_term_flag; reflexivity.
Qed.

(** X8: when the reference ice mask is zero everywhere, the misfit of the
    last slot divides by zero, for every vector of nine weights: the term
    cannot be switched off, so such a mask always spoils the cost. *)
Theorem empty_reference_mask_division_by_zero lambdas
    ref_surf ref_ice_mask ref_inner_mask guessed_bed
    model_surf model_ice_mask model_inner_mask dx :
  (9 ≤ length lambdas)%nat →
  all_entries 0%Q ref_ice_mask →
  ∃ c v, get_costs (unflagged1 lambdas) (unflagged2 ref_surf)
           (unflagged2 ref_ice_mask) (unflagged2 ref_inner_mask)
           (unflagged2 guessed_bed) (unflagged2 model_surf)
           (unflagged2 model_ice_mask) (unflagged2 model_inner_mask)
           (unflagged dx) = Ok c
         ∧ values c !! 9%nat = Some (v, true).
Proof.
  intros Hlen Hmask.
  destruct (nine_entries lambdas Hlen)
    as (l0 & l1 & l2 & l3 & l4 & l5 & l6 & l7 & l8 & rest & ->).
  pose proof (tsum_all_zero _ (all_entries_unflagged2 _ _ Hmask)) as Hsum.
  eexists _, _. split; [apply get_costs_nine|].
  cbn [values lookup list_lookup]. unfold misfit. rewrite Hsum.
  f_equal. apply injective_projections; [reflexivity|].
  cbn. rewrite orb_false_r. apply orb_true_r.
Qed.

(** X9: when the reference ice mask is one on the whole grid, the two
    terms for the cells outside the glacier, slots 2 and 3, divide by
    [n_grid - n_ice_mask = 0] whenever they are enabled. *)
Theorem full_reference_mask_division_by_zero lambdas (i h w : nat) (li : Q)
    ref_surf ref_ice_mask ref_inner_mask guessed_bed
    model_surf model_ice_mask model_inner_mask dx :
  (9 ≤ length lambdas)%nat → (i = 2 ∨ i = 3)%nat →
  lambdas !! i = Some li → Qeq_bool li 0 = false →
  has_shape h w ref_surf → has_shape h w ref_ice_mask →
  all_entries 1%Q ref_ice_mask →
  ∃ c v, get_costs (unflagged1 lambdas) (unflagged2 ref_surf)
           (unflagged2 ref_ice_mask) (unflagged2 ref_inner_mask)
           (unflagged2 guessed_bed) (unflagged2 model_surf)
           (unflagged2 model_ice_mask) (unflagged2 model_inner_mask)
           (unflagged dx) = Ok c
         ∧ values c !! i = Some (v, true).
Proof.
  intros Hlen Hi Hli Hne Hsurf Hshape Hmask.
  destruct (nine_entries lambdas Hlen)
    as (l0 & l1 & l2 & l3 & l4 & l5 & l6 & l7 & l8 & rest & ->).
  pose proof (tsum_all_one h w _ (has_shape_unflagged2 _ _ _ Hshape)
                (all_entries_unflagged2 _ _ Hmask)) as Hsum.
  pose proof (numel_has_shape h w _ (has_shape_unflagged2 _ _ _ Hsurf))
    as Hnumel.
  apply fne_unflagged in Hne.
  destruct Hi as [->| ->];
    cbn in Hli; injection Hli as ->;
    eexists _, _; (split; [apply get_costs_nine|]);
    cbn [values lookup list_lookup]; unfold slot, term, outside_sq;
    rewrite Hne, Hsum, Hnumel;
    f_equal; (apply injective_projections; [reflexivity|]);
    apply flagged_term_flag; cbn;
    apply Qeq_bool_iff; rewrite Qred_correct; ring.
Qed.
End DivisionByZero.

(** ** Exact arithmetic *)

Lemma Qred_zero (q : Q) : (q == 0)%Q → Qred q = 0%Q.
Proof. intros Hq. apply (Qred_complete q 0 Hq). Qed.

Section Exact.
Implicit Types (a b s t mask : tensor Q) (x y : Q).

Lemma Q_square_difference_sym x y : fpow (fsub x y) 2 = fpow (fsub y x) 2.
Proof.
  cbn [fpow fsub Q_Scalar]. apply Qred_complete.
  rewrite !Qred_correct. unfold Qpower, Qpower_positive. cbn. ring.
Qed.

Lemma tpow_tsub_sym a b : tpow (tsub a b) 2 = tpow (tsub b a) 2.
Proof.
  unfold tpow, tsub, tmap, tzip. revert b.
  induction a as [|ra a IH]; intros [|rb b]; try reflexivity.
  cbn [zip_with map]. f_equal; [|apply IH].
  clear. revert rb.
  induction ra as [|x ra IH]; intros [|y rb]; try reflexivity.
  cbn [zip_with map]. f_equal; [apply Q_square_difference_sym|apply IH].
Qed.

Lemma Q_sub_diag x : fsub x x = 0%Q.
Proof. cbn [fsub Q_Scalar]. apply Qred_zero. ring. Qed.

Lemma tsub_diag s : all_entries 0%Q (tsub s s).
Proof.
  unfold all_entries, tsub, tzip.
  induction s as [|row s IH]; [constructor|].
  cbn [zip_with]. constructor; [|exact IH].
  clear. induction row as [|x row IH]; [constructor|].
  cbn [zip_with]. constructor; [apply Q_sub_diag|exact IH].
Qed.

Lemma all_entries_tmap (g : Q → Q) x y t :
  g x = y → all_entries x t → all_entries y (tmap g t).
Proof.
  intros Hg Ht. unfold all_entries, tmap. apply Forall_map.
  eapply Forall_impl; [exact Ht|]. intros row Hrow. cbn. apply Forall_map.
  eapply Forall_impl; [exact Hrow|]. intros z ->. exact Hg.
Qed.

Lemma all_entries_const y t : all_entries y (tmap (fun _ => y) t).
Proof.
  unfold all_entries, tmap. apply Forall_map, Forall_forall. intros row _.
  cbn. apply Forall_map, Forall_forall. intros z _. reflexivity.
Qed.

Lemma Q_tsum_zero t : all_entries 0%Q t → tsum t = 0%Q.
Proof.
  intros Ht. unfold tsum. apply Forall_rows_concat in Ht.
  induction Ht as [|y l -> _ IH]; [reflexivity|]. exact IH.
Qed.

Lemma all_entries_tmul_zero t mask :
  all_entries 0%Q t → all_entries 0%Q (tmul t mask).
Proof.
  unfold all_entries, tmul, tzip. intros Ht. revert mask.
  induction Ht as [|row t Hrow _ IH]; intros [|mrow mask]; try constructor.
  - clear IH. revert mrow.
    induction Hrow as [|x row -> _ IH]; intros [|m mrow]; try constructor.
    + cbn [fmul Q_Scalar]. apply Qred_zero. ring.
    + apply IH.
  - apply IH.
Qed.

Lemma Q_zero_term (l n : Q) : fmul l (fdiv 0%Q n) = 0%Q.
Proof.
  cbn [fmul fdiv Q_Scalar]. apply Qred_zero.
  rewrite Qred_correct. unfold Qdiv. ring.
Qed.
End Exact.

Section ExactTerms.
Implicit Types (lambdas : list Q) (dx : Q).
Implicit Types
  (ref_surf ref_ice_mask ref_inner_mask guessed_bed : tensor Q)
  (model_surf model_ice_mask model_inner_mask surf : tensor Q).

(** X10: in exact arithmetic the custom term repeats the misfit: when its
    weight is not zero, slot 8 is [lambdas[8]] times the value of slot 9,
    the squared differences being summed over [model_surf - ref_surf] in
    the one and over [ref_surf - model_surf] in the other, and both divided
    by the sum of the reference ice mask. *)
Theorem lmsd_term_is_weighted_misfit lambdas (l8 : Q)
    ref_surf ref_ice_mask ref_inner_mask guessed_bed
    model_surf model_ice_mask model_inner_mask dx :
  lambdas !! 8%nat = Some l8 → fne l8 (of_Z 0) = true →
  ∃ c m, get_costs lambdas ref_surf ref_ice_mask ref_inner_mask guessed_bed
           model_surf model_ice_mask model_inner_mask dx = Ok c
         ∧ values c !! 9%nat = Some m
         ∧ values c !! 8%nat = Some (fmul l8 m).
Proof.
  intros H8 Hne.
  assert (9 ≤ length lambdas)%nat as Hlen.
  { apply lookup_lt_Some in H8. lia. }
  destruct (nine_entries lambdas Hlen)
    as (l0 & l1 & l2 & l3 & l4 & l5 & l6 & l7 & l8' & rest & ->).
  cbn in H8. injection H8 as ->.
  eexists _, _. split; [apply get_costs_nine|].
  split; [reflexivity|].
  cbn [values lookup list_lookup]. unfold slot, term, misfit. rewrite Hne.
  cbn [LMSD.forward snd]. rewrite tpow_tsub_sym. reflexivity.
Qed.

(** X11: in exact arithmetic, when the model surface equals the reference
    surface and the reference ice mask does not sum to zero, the misfit of
    slot 9 and the custom term of slot 8 are zero, and the gradient the
    custom node hands to the engine for the bed is zero in every cell. *)
Theorem perfect_fit_has_no_misfit lambdas
    surf ref_ice_mask ref_inner_mask guessed_bed
    model_ice_mask model_inner_mask dx :
  (9 ≤ length lambdas)%nat → tsum ref_ice_mask ≠ 0%Q →
  ∃ c, get_costs lambdas surf ref_ice_mask ref_inner_mask guessed_bed
         surf model_ice_mask model_inner_mask dx = Ok c
       ∧ values c !! 9%nat = Some 0%Q
       ∧ values c !! 8%nat = Some 0%Q
       ∧ ∃ g, injected_bed_grad c = Ok g
              ∧ all_entries 0%Q (gradient_wrt g guessed_bed).
Proof.
  intros Hlen _.
  destruct (nine_entries lambdas Hlen)
    as (l0 & l1 & l2 & l3 & l4 & l5 & l6 & l7 & l8 & rest & ->).
  assert (tsum (tpow (tsub surf surf) 2) = 0%Q) as Hnum.
  { apply Q_tsum_zero. eapply all_entries_tmap; [|apply tsub_diag].
    reflexivity. }
  eexists. split; [apply get_costs_nine|].
  cbn [values lookup list_lookup custom_node].
  unfold slot, term, misfit, injected_bed_grad. cbn [LMSD.forward snd fst].
  rewrite Hnum. split; [|split].
  - reflexivity.
  - destruct (fne l8 (of_Z 0)); [|reflexivity]. f_equal.
    apply Q_zero_term.
  - cbn [custom_node].
    destruct (fne l8 (of_Z 0)); eexists; (split; [reflexivity|]).
    + apply all_entries_tmul_zero, tsub_diag.
    + apply all_entries_const.
Qed.








End ExactTerms.

(** ** The errors of [cost_function] before the forward run returns *)

Section CostFunctionErrors.
Context {F : Type} `{!Scalar F}.
Variable MassBalanceModel : Type.
Variable run_forward_core :
  F → tensor F → F → MassBalanceModel → tensor F → result (tensor F).
Variable autograd_backward :
  (tensor F → result (list F)) → option (F * LMSD.ctx F) → tensor F
  → result (tensor F).

(** X13: a bed vector whose length is not rows times columns of [ref_surf]
    makes [cost_function] raise [ValueError] at the reshape of line 130,
    whatever the simulator is, and leaves the logger as it was. *)
Theorem cost_function_wrong_length (b : ndarray F) lambdas
    ref_surf ref_ice_mask ref_inner_mask spinup_surf conv_filter
    yrs_to_run dx mb data_logger :
  length (nd_data b) ≠ ((shape ref_surf).1 * (shape ref_surf).2)%nat →
  cost_function MassBalanceModel run_forward_core autograd_backward
    b lambdas ref_surf ref_ice_mask ref_inner_mask spinup_surf
    conv_filter yrs_to_run dx mb data_logger
  = (Raise ValueError, data_logger).
Proof.
  intros Hlen. unfold cost_function, cost_function_body, reshape2.
  destruct (shape ref_surf) as [h w]. cbn [fst snd] in Hlen.
  destruct (decide (length (nd_data b) = (h * w)%nat)); [contradiction|].
  reflexivity.
Qed.

(** X14: when the bed vector fits the grid and the forward simulator
    raises, [cost_function] raises the simulator's exception and leaves the
    logger as it was: nothing catches it. *)
Theorem cost_function_simulator_error (b : ndarray F) lambdas
    ref_surf ref_ice_mask ref_inner_mask spinup_surf conv_filter
    yrs_to_run dx mb data_logger (shaped : tensor F) (e : exn) :
  reshape2 b (shape ref_surf) = Ok shaped →
  run_forward_core yrs_to_run (torch_tensor shaped) dx mb
    (tsub spinup_surf (torch_tensor shaped)) = Raise e →
  cost_function MassBalanceModel run_forward_core autograd_backward
    b lambdas ref_surf ref_ice_mask ref_inner_mask spinup_surf
    conv_filter yrs_to_run dx mb data_logger
  = (Raise e, data_logger).
Proof.
  intros Hshape Hrun. unfold cost_function, cost_function_body.
  rewrite Hshape. cbn [mbind result_bind].
  rewrite forward_and_costs_raises, Hrun. reflexivity.
Qed.
End CostFunctionErrors.

(** ** The further theorems at concrete inputs *)

Ltac grid_facts :=
  repeat first
    [ reflexivity
    | lia
    | discriminate
    | progress (unfold Qle; cbn; lia)
    | split
    | constructor ].

(** Another surface and another bed on the 3 x 3 grid, all weights one. *)
Lemma slots_read_bed_or_surface_witness :
  (9 ≤ length Grid3.all_lambdas)%nat
  ∧ ∃ c c1 c2,
      get_costs Grid3.all_lambdas Grid3.zero3 Grid3.one3 Grid3.zero3
        Grid3.bed3 Grid3.surf3 Grid3.centre3 Grid3.centre3 1%Q = Ok c
      ∧ get_costs Grid3.all_lambdas Grid3.zero3 Grid3.one3 Grid3.zero3
          Grid3.bed3 Scenarios.surf3' Grid3.centre3 Grid3.centre3 1%Q
        = Ok c1
      ∧ get_costs Grid3.all_lambdas Grid3.zero3 Grid3.one3 Grid3.zero3
          Scenarios.bed3' Grid3.surf3 Grid3.centre3 Grid3.centre3 1%Q
        = Ok c2
      ∧ (∀ j : nat, j = 1%nat ∨ j = 3%nat ∨ j = 5%nat ∨ j = 6%nat →
           values c1 !! j = values c !! j)
      ∧ (∀ j : nat, j = 7%nat ∨ j = 9%nat →
           values c2 !! j = values c !! j).
Proof.
  split; [vm_compute; lia|].
  apply (slots_read_bed_or_surface Grid3.all_lambdas Grid3.zero3 Grid3.one3
           Grid3.zero3 Grid3.bed3 Grid3.surf3 Grid3.centre3 Grid3.centre3
           1%Q Scenarios.bed3' Scenarios.surf3').
  vm_compute; lia.
Defined.

(** The centre cell of the 3 x 3 grid. *)
Lemma masked_difference_stencil_witness :
  (has_shape 3 3 Scenarios.surf3' ∧ has_shape 3 3 Grid3.centre3
   ∧ (0 + 2 < 3)%nat ∧ (0 + 2 < 3)%nat)
  ∧ ∃ W E N S M : Q,
      cell Scenarios.surf3' (0 + 1) 0 = Some W
      ∧ cell Scenarios.surf3' (0 + 1) (0 + 2) = Some E
      ∧ cell Scenarios.surf3' 0 (0 + 1) = Some N
      ∧ cell Scenarios.surf3' (0 + 2) (0 + 1) = Some S
      ∧ cell Grid3.centre3 (0 + 1) (0 + 1) = Some M
      ∧ cell (masked_diff_x Scenarios.surf3' Grid3.centre3 1%Q) (0 + 1) 0
        = Some (fmul (fdiv (fsub W E) 1%Q) M)
      ∧ cell (masked_diff_y Scenarios.surf3' Grid3.centre3 1%Q) 0 (0 + 1)
        = Some (fmul (fdiv (fsub N S) 1%Q) M).
Proof.
  split; [grid_facts|].
  apply (masked_difference_stencil 3 3 Scenarios.surf3' Grid3.centre3 1%Q
           0 0); grid_facts.
Defined.

Lemma curvature_stencil_witness :
  (has_shape 3 3 Scenarios.surf3' ∧ has_shape 3 3 Grid3.centre3
   ∧ (0 + 2 < 3)%nat ∧ (0 + 2 < 3)%nat)
  ∧ ∃ W E N S C M : Q,
      cell Scenarios.surf3' (0 + 1) 0 = Some W
      ∧ cell Scenarios.surf3' (0 + 1) (0 + 2) = Some E
      ∧ cell Scenarios.surf3' 0 (0 + 1) = Some N
      ∧ cell Scenarios.surf3' (0 + 2) (0 + 1) = Some S
      ∧ cell Scenarios.surf3' (0 + 1) (0 + 1) = Some C
      ∧ cell Grid3.centre3 (0 + 1) (0 + 1) = Some M
      ∧ cell (curvature_x Scenarios.surf3' Grid3.centre3 1%Q) (0 + 1) 0
        = Some (fmul (fdiv (fsub (fadd W E) (fmul (of_Z 2) C))
                           (fpow 1%Q 2)) M)
      ∧ cell (curvature_y Scenarios.surf3' Grid3.centre3 1%Q) 0 (0 + 1)
        = Some (fmul (fdiv (fsub (fadd N S) (fmul (of_Z 2) C))
                           (fpow 1%Q 2)) M).
Proof.
  split; [grid_facts|].
  apply (curvature_stencil 3 3 Scenarios.surf3' Grid3.centre3 1%Q 0 0);
    grid_facts.
Defined.

Lemma difference_operators_shapes_witness :
  (has_shape 3 3 Scenarios.surf3' ∧ has_shape 3 3 Grid3.centre3)
  ∧ has_shape 3 (3 - 2) (masked_diff_x Scenarios.surf3' Grid3.centre3 1%Q)
  ∧ has_shape (3 - 2) 3 (masked_diff_y Scenarios.surf3' Grid3.centre3 1%Q)
  ∧ has_shape 3 (3 - 2) (curvature_x Scenarios.surf3' Grid3.centre3 1%Q)
  ∧ has_shape (3 - 2) 3 (curvature_y Scenarios.surf3' Grid3.centre3 1%Q).
Proof.
  split; [grid_facts|].
  apply (difference_operators_shapes 3 3 Scenarios.surf3' Grid3.centre3
           1%Q 1%Q); grid_facts.
Defined.

Lemma lmsd_gradient_cells_witness :
  (has_shape 3 3 Grid3.surf3 ∧ has_shape 3 3 Grid3.zero3
   ∧ has_shape 3 3 Grid3.centre3)
  ∧ ∃ g, LMSD.backward
           (LMSD.forward Grid3.surf3 Grid3.zero3 Grid3.one3 Grid3.centre3
              Grid3.bed3).1 1%Q
         = Ok (None, None, None, None, Some g)
         ∧ has_shape 3 3 g
         ∧ ∀ r c a b m,
             cell Grid3.surf3 r c = Some a →
             cell Grid3.zero3 r c = Some b →
             cell Grid3.centre3 r c = Some m →
             cell g r c = Some (fmul (fsub a b) m).
Proof.
  split; [grid_facts|].
  apply (lmsd_gradient_cells 3 3 Grid3.surf3 Grid3.zero3 Grid3.one3
           Grid3.centre3 Grid3.bed3 1%Q); grid_facts.
Defined.

(** Term 0 enabled on an inner mask without any cell. *)
Lemma empty_inner_mask_division_by_zero_witness :
  ((9 ≤ length Grid3.all_lambdas)%nat
   ∧ (0 = 0 ∨ 0 = 1 ∨ 0 = 4 ∨ 0 = 5 ∨ 0 = 7)%nat
   ∧ Grid3.all_lambdas !! 0%nat = Some 1%Q ∧ Qeq_bool 1 0 = false
   ∧ all_entries 0%Q Grid3.zero3)
  ∧ ∃ c v, get_costs (Grid3.unflagged1 Grid3.all_lambdas)
             (Grid3.unflagged2 Grid3.zero3) (Grid3.unflagged2 Grid3.one3)
             (Grid3.unflagged2 Grid3.zero3) (Grid3.unflagged2 Grid3.bed3)
             (Grid3.unflagged2 Grid3.surf3) (Grid3.unflagged2 Grid3.zero3)
             (Grid3.unflagged2 Grid3.zero3) (Grid3.unflagged 1%Q) = Ok c
           ∧ values c !! 0%nat = Some (v, true).
Proof.
  split.
  - split; [vm_compute; lia|]. split; [left; reflexivity|]. grid_facts.
  - apply (empty_inner_mask_division_by_zero Grid3.all_lambdas 0 1%Q
             Grid3.zero3 Grid3.one3 Grid3.zero3 Grid3.bed3 Grid3.surf3
             Grid3.zero3 Grid3.zero3 1%Q);
      [vm_compute; lia | left; reflexivity | grid_facts..].
Defined.

(** All weights zero on a reference ice mask without any cell. *)
Lemma empty_reference_mask_division_by_zero_witness :
  ((9 ≤ length Grid3.no_lambdas)%nat ∧ all_entries 0%Q Grid3.zero3)
  ∧ ∃ c v, get_costs (Grid3.unflagged1 Grid3.no_lambdas)
             (Grid3.unflagged2 Grid3.surf3) (Grid3.unflagged2 Grid3.zero3)
             (Grid3.unflagged2 Grid3.zero3) (Grid3.unflagged2 Grid3.bed3)
             (Grid3.unflagged2 Grid3.surf3) (Grid3.unflagged2 Grid3.centre3)
             (Grid3.unflagged2 Grid3.centre3) (Grid3.unflagged 1%Q) = Ok c
           ∧ values c !! 9%nat = Some (v, true).
Proof.
  split.
  - split; [vm_compute; lia|grid_facts].
  - apply (empty_reference_mask_division_by_zero Grid3.no_lambdas
             Grid3.surf3 Grid3.zero3 Grid3.zero3 Grid3.bed3 Grid3.surf3
             Grid3.centre3 Grid3.centre3 1%Q);
      [vm_compute; lia | grid_facts].
Defined.

(** Term 2 enabled on a reference ice mask that covers the 3 x 3 grid. *)
Lemma full_reference_mask_division_by_zero_witness :
  ((9 ≤ length Grid3.all_lambdas)%nat ∧ (2 = 2 ∨ 2 = 3)%nat
   ∧ Grid3.all_lambdas !! 2%nat = Some 1%Q ∧ Qeq_bool 1 0 = false
   ∧ has_shape 3 3 Grid3.surf3 ∧ has_shape 3 3 Grid3.one3
   ∧ all_entries 1%Q Grid3.one3)
  ∧ ∃ c v, get_costs (Grid3.unflagged1 Grid3.all_lambdas)
             (Grid3.unflagged2 Grid3.surf3) (Grid3.unflagged2 Grid3.one3)
             (Grid3.unflagged2 Grid3.zero3) (Grid3.unflagged2 Grid3.bed3)
             (Grid3.unflagged2 Grid3.surf3) (Grid3.unflagged2 Grid3.centre3)
             (Grid3.unflagged2 Grid3.centre3) (Grid3.unflagged 1%Q) = Ok c
           ∧ values c !! 2%nat = Some (v, true).
Proof.
  split.
  - split; [vm_compute; lia|]. split; [left; reflexivity|]. grid_facts.
  - apply (full_reference_mask_division_by_zero Grid3.all_lambdas 2 3 3 1%Q
             Grid3.surf3 Grid3.one3 Grid3.zero3 Grid3.bed3 Grid3.surf3
             Grid3.centre3 Grid3.centre3 1%Q);
      [vm_compute; lia | left; reflexivity | grid_facts..].
Defined.

(** The custom term with the weight 3, beside the misfit. *)
Lemma lmsd_term_is_weighted_misfit_witness :
  (Grid3.only_lambda 8 3%Q !! 8%nat = Some 3%Q ∧ fne 3%Q (of_Z 0) = true)
  ∧ ∃ c m, get_costs (Grid3.only_lambda 8 3%Q) Grid3.zero3 Grid3.one3
             Grid3.zero3 Grid3.bed3 Grid3.surf3 Grid3.centre3 Grid3.centre3
             1%Q = Ok c
           ∧ values c !! 9%nat = Some m
           ∧ values c !! 8%nat = Some (fmul 3%Q m).
Proof.
  split; [split; reflexivity|].
  apply (lmsd_term_is_weighted_misfit (Grid3.only_lambda 8 3%Q) 3%Q
           Grid3.zero3 Grid3.one3 Grid3.zero3 Grid3.bed3 Grid3.surf3
           Grid3.centre3 Grid3.centre3 1%Q); reflexivity.
Defined.

(** A model surface equal to the reference surface, all weights one. *)
Lemma perfect_fit_has_no_misfit_witness :
  ((9 ≤ length Grid3.all_lambdas)%nat ∧ tsum Grid3.one3 ≠ 0%Q)
  ∧ ∃ c, get_costs Grid3.all_lambdas Grid3.surf3 Grid3.one3 Grid3.zero3
           Grid3.bed3 Grid3.surf3 Grid3.centre3 Grid3.centre3 1%Q = Ok c
         ∧ values c !! 9%nat = Some 0%Q
         ∧ values c !! 8%nat = Some 0%Q
         ∧ ∃ g, injected_bed_grad c = Ok g
                ∧ all_entries 0%Q (gradient_wrt g Grid3.bed3).
Proof.
  split.
  - split; [vm_compute; lia | vm_compute; discriminate].
  - apply (perfect_fit_has_no_misfit Grid3.all_lambdas Grid3.surf3
             Grid3.one3 Grid3.zero3 Grid3.bed3 Grid3.centre3 Grid3.centre3
             1%Q); [vm_compute; lia | vm_compute; discriminate].
Defined.


(** Four numbers for a grid of nine cells. *)
Lemma cost_function_wrong_length_witness :
  length (nd_data Scenarios.b4)
  ≠ ((shape Grid3.surf3).1 * (shape Grid3.surf3).2)%nat
  ∧ cost_function unit Grid3.mock_forward Grid3.mock_backward Scenarios.b4
      Grid3.no_lambdas Grid3.surf3 Grid3.one3 Grid3.centre3 Grid3.surf3
      Grid3.conv_filter 1%Q 1%Q tt (Some Grid3.empty_logger)
    = (Raise ValueError, Some Grid3.empty_logger).
Proof.
  split; [vm_compute; lia|].
  apply (cost_function_wrong_length unit Grid3.mock_forward
           Grid3.mock_backward Scenarios.b4 Grid3.no_lambdas Grid3.surf3
           Grid3.one3 Grid3.centre3 Grid3.surf3 Grid3.conv_filter 1%Q 1%Q tt
           (Some Grid3.empty_logger)).
  vm_compute; lia.
Defined.

(** A simulator that raises [RuntimeError]. *)
Lemma cost_function_simulator_error_witness :
  (reshape2 Grid3.b9 (shape Grid3.surf3) = Ok Grid3.bed3
   ∧ Scenarios.failing_forward 1%Q (torch_tensor Grid3.bed3) 1%Q tt
       (tsub Grid3.surf3 (torch_tensor Grid3.bed3)) = Raise RuntimeError)
  ∧ cost_function unit Scenarios.failing_forward Grid3.mock_backward
      Grid3.b9 Grid3.no_lambdas Grid3.surf3 Grid3.one3 Grid3.centre3
      Grid3.surf3 Grid3.conv_filter 1%Q 1%Q tt (Some Grid3.empty_logger)
    = (Raise RuntimeError, Some Grid3.empty_logger).
Proof.
  split; [split; reflexivity|].
  apply (cost_function_simulator_error unit Scenarios.failing_forward
           Grid3.mock_backward Grid3.b9 Grid3.no_lambdas Grid3.surf3
           Grid3.one3 Grid3.centre3 Grid3.surf3 Grid3.conv_filter 1%Q 1%Q tt
           (Some Grid3.empty_logger) Grid3.bed3 RuntimeError);
    reflexivity.
Defined.
